(** * GovBR news dashboard: filter, aggregate and rank

    A shallow embedding of [src/app/main.py] (class [GovBRNewsAnalysis]).
    A pandas DataFrame is a list of row records, in row order; a Series is
    a list of (index label, value) pairs, in order.  Integers are [Z]
    (Python [int], numpy [int64] far from its bounds), strings are byte
    strings compared byte by byte, which is the code point order Python
    uses on UTF-8 text.  A [Timestamp] is its number of nanoseconds since
    the epoch, a [date] its number of days since the epoch.

    The pandas operations the code chains ([value_counts], [sort_index],
    [groupby], [nlargest], [iloc], [isin], [sort_values]) are defined
    first, after their documented behaviour; the methods of the class
    follow, each one the same chain of calls as in the source. *)

From Stdlib Require Import String Ascii.
From Stdlib Require Import ZArith List Bool Lia Arith.
From Stdlib Require Import Permutation Sorted OrderedTypeEx.
Import ListNotations.

Local Open Scope Z_scope.

(** ** Ordered labels

    Index labels are compared for equality (grouping, [isin]) and for
    order (sorted group keys, [sort_index]). *)

Class OrdKey (K : Type) := {
  keqb : K -> K -> bool;
  kleb : K -> K -> bool;
  keqb_spec : forall x y, reflect (x = y) (keqb x y);
  kleb_total : forall x y, kleb x y = true \/ kleb y x = true;
  kleb_trans : forall x y z, kleb x y = true -> kleb y z = true -> kleb x z = true;
  kleb_antisym : forall x y, kleb x y = true -> kleb y x = true -> x = y
}.

(** Strict order on labels. *)
Definition klt {K} `{OrdKey K} (x y : K) : Prop := kleb x y = true /\ x <> y.

Lemma string_leb_trans (x y z : string) :
  String.leb x y = true -> String.leb y z = true -> String.leb x z = true.
Proof.
  unfold String.leb. intros Hxy Hyz.
  destruct (String.compare x y) eqn:Exy; try discriminate;
  destruct (String.compare y z) eqn:Eyz; try discriminate.
  - apply String_as_OT.cmp_eq in Exy. subst. now rewrite Eyz.
  - apply String_as_OT.cmp_eq in Exy. subst. now rewrite Eyz.
  - apply String_as_OT.cmp_eq in Eyz. subst. now rewrite Exy.
  - apply String_as_OT.cmp_lt in Exy. apply String_as_OT.cmp_lt in Eyz.
    pose proof (String_as_OT.lt_trans _ _ _ Exy Eyz) as Hlt.
    apply String_as_OT.cmp_lt in Hlt. unfold String_as_OT.cmp in Hlt.
    now rewrite Hlt.
Qed.

Lemma string_leb_antisym (x y : string) :
  String.leb x y = true -> String.leb y x = true -> x = y.
Proof.
  unfold String.leb. intros Hxy Hyx.
  destruct (String.compare x y) eqn:Exy; try discriminate.
  - now apply String_as_OT.cmp_eq in Exy.
  - rewrite String.compare_antisym, Exy in Hyx. discriminate.
Qed.

#[export] Instance OrdKey_Z : OrdKey Z.
Proof.
  refine {| keqb := Z.eqb; kleb := Z.leb |}.
  - apply Z.eqb_spec.
  - intros x y. rewrite !Z.leb_le. lia.
  - intros x y z. rewrite !Z.leb_le. lia.
  - intros x y. rewrite !Z.leb_le. lia.
Defined.

#[export] Instance OrdKey_string : OrdKey string.
Proof.
  refine {| keqb := String.eqb; kleb := String.leb |}.
  - apply String.eqb_spec.
  - apply String.leb_total.
  - apply string_leb_trans.
  - apply string_leb_antisym.
Defined.

(** Tuples, as in a two-level group key, are ordered lexicographically. *)
Definition pair_eqb {A B} `{OrdKey A} `{OrdKey B} (p q : A * B) : bool :=
  keqb (fst p) (fst q) && keqb (snd p) (snd q).

Definition pair_leb {A B} `{OrdKey A} `{OrdKey B} (p q : A * B) : bool :=
  if keqb (fst p) (fst q) then kleb (snd p) (snd q) else kleb (fst p) (fst q).

#[export] Instance OrdKey_pair {A B} `{OrdKey A} `{OrdKey B} : OrdKey (A * B).
Proof.
  refine {| keqb := pair_eqb; kleb := pair_leb |}.
  - intros [a b] [c d]. unfold pair_eqb. simpl.
    destruct (keqb_spec a c), (keqb_spec b d); simpl; constructor; congruence.
  - intros [a b] [c d]. unfold pair_leb. simpl.
    destruct (keqb_spec a c), (keqb_spec c a); try congruence.
    + apply kleb_total.
    + apply kleb_total.
  - intros [a b] [c d] [e f]. unfold pair_leb. simpl.
    destruct (keqb_spec a c), (keqb_spec c e), (keqb_spec a e);
      subst; try congruence; intros H1 H2.
    + eapply kleb_trans; eauto.
    + exfalso. apply n. eapply kleb_antisym; eauto.
    + eapply kleb_trans; eauto.
  - intros [a b] [c d]. unfold pair_leb. simpl.
    destruct (keqb_spec a c), (keqb_spec c a); subst; try congruence; intros H1 H2.
    + f_equal. eapply kleb_antisym; eauto.
    + exfalso. apply n. eapply kleb_antisym; eauto.
Defined.

(** ** Stable sorting

    pandas sorts frames on several columns with a stable sort, and
    [nlargest] of fewer values than the series has keeps equal values in
    order of appearance ([keep='first']).  Both are modelled by insertion
    sort, which is stable. *)

Section Sorting.
Context {A : Type} (le : A -> A -> bool).

Fixpoint insert_by (x : A) (l : list A) : list A :=
  match l with
  | [] => [x]
  | y :: t => if le x y then x :: y :: t else y :: insert_by x t
  end.

Fixpoint sort_by (l : list A) : list A :=
  match l with
  | [] => []
  | x :: t => insert_by x (sort_by t)
  end.

(** Ties keep their order of appearance: when the input already follows
    a relation [before], the output follows [le] first and [before]
    among elements that [le] does not separate. *)
Definition ranked (before : A -> A -> Prop) (x y : A) : Prop :=
  le x y = true /\ (le y x = true -> before x y).

End Sorting.

(** ** The default sort of [sort_values]

    [Series.sort_values] sorts with numpy's default sort, which is not
    stable: the result is in order of value, and the order among equal
    values is whatever that sort makes of the input.  The model takes it
    as a parameter, a function of which only these two facts are known. *)
Class SortValues := {
  sort_values_desc : forall {K : Type}, list (K * Z) -> list (K * Z);
  sort_values_desc_perm :
    forall (K : Type) (s : list (K * Z)), Permutation (sort_values_desc s) s;
  sort_values_desc_sorted :
    forall (K : Type) (s : list (K * Z)),
      StronglySorted (fun x y => snd y <= snd x) (sort_values_desc s)
}.

(** ** The pandas operations used by the dashboard *)

Section Pandas.
Context {K : Type} `{OrdKey K}.

(** [Series.unique]: distinct values in order of first appearance. *)
Fixpoint unique (l : list K) : list K :=
  match l with
  | [] => []
  | x :: t => x :: filter (fun y => negb (keqb x y)) (unique t)
  end.

(** [Series.nunique]. *)
Definition nunique (l : list K) : Z := Z.of_nat (length (unique l)).

(** [Series.isin]. *)
Definition isin (x : K) (values : list K) : bool := existsb (keqb x) values.

(** Number of occurrences of a label in a column. *)
Definition occurrences (k : K) (col : list K) : Z :=
  Z.of_nat (length (filter (keqb k) col)).

(** [Series.value_counts]: one entry per distinct value, most frequent
    first. *)
Definition value_counts (col : list K) : list (K * Z) :=
  sort_by (fun x y => snd y <=? snd x)
          (map (fun k => (k, occurrences k col)) (unique col)).

(** [Series.sort_index]: ascending by label. *)
Definition sort_index {V} (s : list (K * V)) : list (K * V) :=
  sort_by (fun x y => kleb (fst x) (fst y)) s.

(** The group keys: the distinct labels, ascending. *)
Definition group_keys (col : list K) : list K := sort_by kleb (unique col).

(** [DataFrame.groupby(key)] followed by an aggregation of each group:
    one entry per group, group keys sorted ascending ([sort=True]), each
    group holding its rows in frame order. *)
Definition groupby {R V} (key : R -> K) (agg : list R -> V)
           (rows : list R) : list (K * V) :=
  map (fun k => (k, agg (filter (fun r => keqb (key r) k) rows)))
      (group_keys (map key rows)).

End Pandas.

(** [Series.nlargest(n)] with [keep='first']: nothing for [n <= 0]; for
    [n] at least the length of the series,
    [sort_values(ascending=False).head(n)]; otherwise the [n] largest
    values in descending order, equal values in order of appearance. *)
Definition nlargest {SV : SortValues} {K} (n : Z) (s : list (K * Z))
  : list (K * Z) :=
  if n <=? 0 then []
  else if Z.of_nat (length s) <=? n
       then firstn (Z.to_nat n) (sort_values_desc s)
       else firstn (Z.to_nat n) (sort_by (fun x y => snd y <=? snd x) s).

(** Python slice bounds: a negative bound counts from the end, and both
    bounds are clipped to the length. *)
Definition slice_bound (len i : Z) : Z :=
  if i <? 0 then Z.max (i + len) 0 else Z.min i len.

(** [.iloc[start:stop]]. *)
Definition iloc {A} (start stop : Z) (l : list A) : list A :=
  let len := Z.of_nat (length l) in
  let lo := slice_bound len start in
  let hi := slice_bound len stop in
  firstn (Z.to_nat (hi - lo)) (skipn (Z.to_nat lo) l).

(** Aggregations of a group. *)
Definition size {R} (group : list R) : Z := Z.of_nat (length group).

Definition sum (values : list Z) : Z := fold_right Z.add 0 values.

(** [count] skips missing values. *)
Definition count {V} (values : list (option V)) : Z :=
  Z.of_nat (length (filter (fun v => match v with Some _ => true | None => false end) values)).

(** [Series.min] and [Series.max]; an empty column has neither. *)
Definition series_min (col : list Z) : option Z :=
  match col with
  | [] => None
  | x :: t => Some (fold_left Z.min t x)
  end.

Definition series_max (col : list Z) : option Z :=
  match col with
  | [] => None
  | x :: t => Some (fold_left Z.max t x)
  end.

(** ** Calendar

    The proleptic Gregorian calendar behind [Timestamp.dt] and
    [strftime]: days are counted from 1970-01-01. *)

Module Calendar.
Definition ns_per_day : Z := 86400000000000.

(** [.dt.date] *)
Definition date (ts : Z) : Z := ts / ns_per_day.

Definition civil_from_days (z : Z) : Z * Z * Z :=
  let z := z + 719468 in
  let era := z / 146097 in
  let doe := z - era * 146097 in
  let yoe := (doe - doe / 1460 + doe / 36524 - doe / 146096) / 365 in
  let doy := doe - (365 * yoe + yoe / 4 - yoe / 100) in
  let mp := (5 * doy + 2) / 153 in
  let d := doy - (153 * mp + 2) / 5 + 1 in
  let m := if mp <? 10 then mp + 3 else mp - 9 in
  let y := yoe + era * 400 in
  (if m <=? 2 then y + 1 else y, m, d).

Definition days_from_civil (y m d : Z) : Z :=
  let y := if m <=? 2 then y - 1 else y in
  let era := y / 400 in
  let yoe := y - era * 400 in
  let doy := (153 * (if 2 <? m then m - 3 else m + 9) + 2) / 5 + d - 1 in
  let doe := yoe * 365 + yoe / 4 - yoe / 100 + doy in
  era * 146097 + doe - 719468.

(** [.dt.year] *)
Definition year (ts : Z) : Z :=
  let '(y, _, _) := civil_from_days (date ts) in y.

(** [.dt.to_period("M").dt.to_timestamp()]: midnight of the first day of
    the month. *)
Definition month_start (ts : Z) : Z :=
  let '(y, m, _) := civil_from_days (date ts) in
  days_from_civil y m 1 * ns_per_day.

(** [.dt.to_period("W").dt.to_timestamp()]: weeks end on Sunday, so the
    bucket is midnight of the Monday on or before the day. *)
Definition week_start (ts : Z) : Z :=
  let d := date ts in (d - (d + 3) mod 7) * ns_per_day.

Definition digit (n : Z) : ascii := ascii_of_nat (48 + Z.to_nat (n mod 10)).

Definition pad2 (n : Z) : string :=
  String (digit (n / 10)) (String (digit n) EmptyString).

Definition pad4 (n : Z) : string :=
  String (digit (n / 1000)) (String (digit (n / 100)) (pad2 n)).

(** [strftime("%d/%m/%Y")]; a pandas timestamp lies between the years
    1677 and 2262, so the year has four digits. *)
Definition strftime_dmy (ts : Z) : string :=
  let '(y, m, d) := civil_from_days (date ts) in
  (pad2 d ++ "/" ++ pad2 m ++ "/" ++ pad4 y)%string.
End Calendar.

(** ** Data model *)

(** A record of the remote dataset.  The title and url cells may be
    missing ([None]); the agency is always a string, since
    [select_agencies] sorts the distinct agencies, which Python refuses
    for a column that mixes strings and missing cells. *)
Record RawArticle := {
  raw_agency : string;
  raw_published_at : Z;
  raw_title : option string;
  raw_url : option string
}.

(** A row of [self.df]: the dataset columns the dashboard reads and the
    four temporal columns that [load_data] adds.  Every row has its
    timestamp: the specification takes that from the upstream producer. *)
Record Article := {
  agency : string;
  published_at : Z;
  title : option string;
  url : option string;
  year : Z;
  month : Z;
  week : Z;
  day : Z
}.

Definition DataFrame := list Article.

Inductive Granularity := Year | Month | Week | Day.

(** [filtered_df[self.granularity_column]] *)
Definition granularity_column (g : Granularity) (a : Article) : Z :=
  match g with
  | Year => year a
  | Month => month a
  | Week => week a
  | Day => day a
  end.

(** A row of the frame returned by [aggregate_by_agency]. *)
Record AgencyCount := {
  Bucket : Z;
  Agency : string;
  Count : Z
}.

(** A row of the article table. *)
Record DisplayedRow := {
  published_date : string;
  row_agency : string;
  row_title : option string;
  row_url : option string
}.

(** ** The methods of [GovBRNewsAnalysis] *)

Definition load_data (dataset : list RawArticle) : DataFrame :=
  map (fun r =>
         {| agency := raw_agency r;
            published_at := raw_published_at r;
            title := raw_title r;
            url := raw_url r;
            year := Calendar.year (raw_published_at r);
            month := Calendar.month_start (raw_published_at r);
            week := Calendar.week_start (raw_published_at r);
            day := Calendar.date (raw_published_at r) |})
      dataset.

(** [run], line 318: [self.df[self.df["agency"].isin(selected_agencies)]] *)
Definition filter_agencies (df : DataFrame) (selected_agencies : list string) : DataFrame :=
  filter (fun a => isin (agency a) selected_agencies) df.

Definition get_min_max_values (df : DataFrame) : option Z * option Z :=
  let min_value := series_min (map day df) in
  let max_value := series_max (map day df) in
  (min_value, max_value).

Definition filter_data (df : DataFrame) (selected_range : Z * Z) : DataFrame :=
  filter (fun a => (fst selected_range <=? day a) && (day a <=? snd selected_range)) df.

Definition aggregate_data (g : Granularity) (filtered_df : DataFrame) : list (Z * Z) :=
  sort_index (value_counts (map (granularity_column g) filtered_df)).

Definition aggregate_by_agency (g : Granularity) (filtered_df : DataFrame)
  : list AgencyCount :=
  map (fun e => {| Bucket := fst (fst e); Agency := snd (fst e); Count := snd e |})
      (groupby (fun a => (granularity_column g a, agency a)) size filtered_df).

(** The part of [plot_by_agency] that selects what is drawn. *)
Module plot_by_agency.
Definition totals (data : list AgencyCount) : list (string * Z) :=
  groupby Agency (fun group => sum (map Count group)) data.

Definition top_agencies {SV : SortValues} (data : list AgencyCount)
           (rank_range : Z * Z) : list string :=
  map fst (iloc (fst rank_range - 1) (snd rank_range)
                (nlargest (snd rank_range) (totals data))).

Definition data {SV : SortValues} (data : list AgencyCount) (rank_range : Z * Z)
  : list AgencyCount :=
  filter (fun r => isin (Agency r) (top_agencies data rank_range)) data.
End plot_by_agency.

Module display_filtered_articles.
Definition totals (filtered_df : DataFrame) : list (string * Z) :=
  groupby agency (fun group => count (map title group)) filtered_df.

Definition top_agencies {SV : SortValues} (filtered_df : DataFrame)
           (rank_range : Z * Z) : list string :=
  map fst (iloc (fst rank_range - 1) (snd rank_range)
                (nlargest (snd rank_range) (totals filtered_df))).

Definition filtered_articles {SV : SortValues} (filtered_df : DataFrame)
           (rank_range : Z * Z) : DataFrame :=
  filter (fun a => isin (agency a) (top_agencies filtered_df rank_range)) filtered_df.

(** [sort_values(by=["published_at", "agency"], ascending=[False, True])] *)
Definition sort_key (a b : Article) : bool :=
  if published_at a =? published_at b
  then kleb (agency a) (agency b)
  else published_at b <=? published_at a.

Definition sorted_articles {SV : SortValues} (filtered_df : DataFrame)
           (rank_range : Z * Z) : DataFrame :=
  sort_by sort_key (filtered_articles filtered_df rank_range).

Definition displayed_columns {SV : SortValues} (filtered_df : DataFrame)
           (rank_range : Z * Z) : list DisplayedRow :=
  map (fun a =>
         {| published_date := Calendar.strftime_dmy (published_at a);
            row_agency := agency a;
            row_title := title a;
            row_url := url a |})
      (sorted_articles filtered_df rank_range).
End display_filtered_articles.

(** [st.slider] with a pair as [value]: the widget puts its bounds in
    order, swaps a pair given upper end first, and widens the bounds until
    they hold the pair. *)
Record Slider := {
  slider_min : Z;
  slider_max : Z;
  slider_value : Z * Z
}.

Definition st_slider (min_value max_value : Z) (value : Z * Z) : Slider :=
  let min_value := Z.min min_value max_value in
  let max_value := Z.max min_value max_value in
  let value := if snd value <? fst value then (snd value, fst value) else value in
  {| slider_min := Z.min (fst value) min_value;
     slider_max := Z.max (snd value) max_value;
     slider_value := value |}.

(** What the user can set a slider to: a pair inside the bounds, lower end
    first.  Before the user moves it the slider returns [slider_value]. *)
Definition slider_returns (w : Slider) (value : Z * Z) : bool :=
  (slider_min w <=? fst value) && (fst value <=? snd value)
  && (snd value <=? slider_max w).

(** The day slider of [run]: asked for the dates from 2000-01-01 to the
    largest day of the agency-filtered frame, with 2010-01-01 to that
    largest day as value.  A frame without rows has no largest day, and
    the widget fails. *)
Definition slider_min_value : Z := Calendar.days_from_civil 2000 1 1.

Definition day_slider (df : DataFrame) : option Slider :=
  match get_min_max_values df with
  | (_, Some max_value) =>
      Some (st_slider slider_min_value max_value
                      (Calendar.days_from_civil 2010 1 1, max_value))
  | (_, None) => None
  end.

Definition selectable_range (df : DataFrame) (selected_range : Z * Z) : bool :=
  match day_slider df with
  | Some w => slider_returns w selected_range
  | None => false
  end.

(** What one run of the dashboard computes from the loaded frame and the
    values of its four widgets. *)
Record Dashboard := {
  total_articles : Z;
  aggregated_data : list (Z * Z);
  aggregated_by_agency : list AgencyCount;
  max_agencies : Z;
  plotted_by_agency : list AgencyCount;
  article_table : list DisplayedRow
}.

Definition run {SV : SortValues} (df : DataFrame) (selected_agencies : list string)
           (g : Granularity) (selected_range rank_range : Z * Z) : Dashboard :=
  let df := filter_agencies df selected_agencies in
  let filtered_df := filter_data df selected_range in
  let by_agency := aggregate_by_agency g filtered_df in
  {| total_articles := size filtered_df;
     aggregated_data := aggregate_data g filtered_df;
     aggregated_by_agency := by_agency;
     max_agencies := nunique (map Agency by_agency);
     plotted_by_agency := plot_by_agency.data by_agency rank_range;
     article_table := display_filtered_articles.displayed_columns filtered_df rank_range |}.

(** *** The scenario of the specification *)

Definition d20210101 : Z := Calendar.days_from_civil 2021 1 1.

Definition mk_article (ag : string) (ts : Z) (t : option string) : RawArticle :=
  {| raw_agency := ag; raw_published_at := ts; raw_title := t; raw_url := None |}.

Definition scenario : DataFrame :=
  load_data [ mk_article "A" (d20210101 * Calendar.ns_per_day) (Some "a1"%string);
              mk_article "A" ((d20210101 + 1) * Calendar.ns_per_day) (Some "a2"%string);
              mk_article "B" (d20210101 * Calendar.ns_per_day) (Some "b1"%string) ].

(** ** The statements of the specification *)

(** The rank window in the words of the specification: order the agencies
    descending by total count, take the top [high], drop the first
    [low - 1]. *)
Definition descending_by_total {K} (totals : list (K * Z)) : list (K * Z) :=
  sort_by (fun x y => snd y <=? snd x) totals.

Definition rank_window {K} (low high : Z) (totals : list (K * Z)) : list K :=
  map fst (skipn (Z.to_nat (low - 1))
                 (firstn (Z.to_nat high) (descending_by_total totals))).

(** The order in which [nlargest(high)] ranks a series: the default sort
    when [high] reaches the length, the order of appearance among equal
    totals otherwise. *)
Definition ranking {SV : SortValues} {K} (high : Z) (totals : list (K * Z))
  : list (K * Z) :=
  if Z.of_nat (length totals) <=? high
  then sort_values_desc totals
  else descending_by_total totals.

(** An ordering of the agencies descending by total count. *)
Definition descending_order {K} (totals ordering : list (K * Z)) : Prop :=
  Permutation ordering totals
  /\ StronglySorted (fun x y => snd y <= snd x) ordering.

(** The rank window of an ordering: its top [high] without the first
    [low - 1]. *)
Definition window_of {K} (low high : Z) (ordering : list (K * Z)) : list K :=
  map fst (skipn (Z.to_nat (low - 1)) (firstn (Z.to_nat high) ordering)).

(** [a] is a [k]-th most prolific agency: fewer than [k] agencies have a
    strictly larger total, and at least [k] have a total at least as
    large. *)
Definition kth_most_prolific {K} (totals : list (K * Z)) (k : Z) (a : K) : Prop :=
  exists c, In (a, c) totals
            /\ Z.of_nat (length (filter (fun e => c <? snd e) totals)) < k
            /\ k <= Z.of_nat (length (filter (fun e => c <=? snd e) totals)).



(** Reading a date back: the number a string of decimal digits writes,
    and a string of ten characters that reads day/month/year. *)
Definition digit_value (c : ascii) : Z := Z.of_nat (nat_of_ascii c) - 48.

Definition is_digit (c : ascii) : bool :=
  (0 <=? digit_value c) && (digit_value c <=? 9).

Fixpoint decimal_from (acc : Z) (s : string) : Z :=
  match s with
  | EmptyString => acc
  | String c t => decimal_from (10 * acc + digit_value c) t
  end.

Definition decimal (s : string) : Z := decimal_from 0 s.

Definition numeral (s : string) : bool :=
  forallb is_digit (list_ascii_of_string s).

Definition reads_dmy (s : string) (y m d : Z) : Prop :=
  String.length s = 10%nat
  /\ numeral (substring 0 2 s) = true /\ decimal (substring 0 2 s) = d
  /\ substring 2 1 s = "/"%string
  /\ numeral (substring 3 2 s) = true /\ decimal (substring 3 2 s) = m
  /\ substring 5 1 s = "/"%string
  /\ numeral (substring 6 4 s) = true /\ decimal (substring 6 4 s) = y.

(** A pandas timestamp counts nanoseconds in 64 bits. *)
Definition timestamp_ns (ts : Z) : Prop := - 2 ^ 63 < ts < 2 ^ 63.

(** Later timestamp first; among equal timestamps, agency ascending. *)
Definition table_order (a b : Article) : Prop :=
  published_at b < published_at a
  \/ (published_at a = published_at b /\ String.leb (agency a) (agency b) = true).

(** The statement of the specification: both ends of an offered range lie
    between the smallest and the largest day of the frame. *)
Definition clamped_to_dataset (df : DataFrame) (selected_range : Z * Z) : Prop :=
  exists min_value max_value,
    get_min_max_values df = (Some min_value, Some max_value)
    /\ min_value <= fst selected_range
    /\ snd selected_range <= max_value.

(** ** Further inputs *)

(** Two agencies with one article each, the later name first in the
    frame. *)
Definition tied : DataFrame :=
  load_data [ mk_article "B" (d20210101 * Calendar.ns_per_day) (Some "b1"%string);
              mk_article "A" (d20210101 * Calendar.ns_per_day) (Some "a1"%string) ].

(** Agency "A" has two articles without a title, agency "B" one article
    with a title. *)
Definition untitled : DataFrame :=
  load_data [ mk_article "A" (d20210101 * Calendar.ns_per_day) None;
              mk_article "A" ((d20210101 + 1) * Calendar.ns_per_day) None;
              mk_article "B" (d20210101 * Calendar.ns_per_day) (Some "b1"%string) ].


(** Three agencies with two, one and one article. *)
Definition three_agencies : DataFrame :=
  load_data [ mk_article "C" (d20210101 * Calendar.ns_per_day) (Some "c1"%string);
              mk_article "A" (d20210101 * Calendar.ns_per_day) (Some "a1"%string);
              mk_article "B" (d20210101 * Calendar.ns_per_day) (Some "b1"%string);
              mk_article "A" ((d20210101 + 1) * Calendar.ns_per_day) (Some "a2"%string) ].

(** ** The widgets of [run] *)

(** [select_agencies]: the options of the multiselect are the distinct
    agencies of the frame, sorted; the session state starts with all of
    them, and the reset button puts all of them back. *)
Module select_agencies.
Definition agencies (df : DataFrame) : list string :=
  sort_by kleb (unique (map agency df)).

(** The session state after the [if "selected_agencies" not in
    st.session_state] block; [None] is a session without the key. *)
Definition session_state (df : DataFrame) (state : option (list string))
  : list string :=
  match state with
  | None => agencies df
  | Some selected => selected
  end.

Definition reset_selection (df : DataFrame) : list string := agencies df.
End select_agencies.

(** [select_granularity]: the options of the selectbox, and the column
    name [granularity.lower()].  Only ASCII letters change case here, as
    in Python on ASCII text; the options are ASCII. *)
Module select_granularity.

Definition lower_char (c : ascii) : ascii :=
  let n := nat_of_ascii c in
  if (Nat.leb 65 n && Nat.leb n 90)%bool then ascii_of_nat (n + 32) else c.


Fixpoint lower (s : string) : string :=
  match s with
  | EmptyString => EmptyString
  | String c t => String (lower_char c) (lower t)
  end.


Definition granularity_column (granularity : string) : string := lower granularity.

End select_granularity.


(** What the day slider returns before the user moves it. *)
Definition default_range (df : DataFrame) : option (Z * Z) :=
  match day_slider df with
  | Some w => Some (slider_value w)
  | None => None
  end.

(** The default value of the rank slider. *)
Definition default_rank_range (max_agencies : Z) : Z * Z :=
  (1, Z.min 10 max_agencies).

(** Earlier bucket first; within a bucket, smaller agency name first. *)
Definition by_bucket_then_agency (r1 r2 : AgencyCount) : Prop :=
  Bucket r1 < Bucket r2
  \/ (Bucket r1 = Bucket r2 /\ String.ltb (Agency r1) (Agency r2) = true).

(** The bucket of a granularity as a function of the day: what
    [load_data] computes goes through the date of the timestamp. *)
Definition bucket_of_day (g : Granularity) (d : Z) : Z :=
  match g with
  | Year => let '(y, _, _) := Calendar.civil_from_days d in y
  | Month => let '(y, m, _) := Calendar.civil_from_days d in
             Calendar.days_from_civil y m 1 * Calendar.ns_per_day
  | Week => (d - (d + 3) mod 7) * Calendar.ns_per_day
  | Day => d
  end.

(** ** The labels of the time axis

    [plot_total] and [plot_by_agency] replace the bucket column by
    strings before charting: year-month for months, ISO year and week for
    weeks, year-month-day for days; years stay numbers. *)
Module plot_total.
Inductive AxisValue := Number (n : Z) | Label (s : string).

(** [strftime("%Y-%m")] of a timestamp *)
Definition strftime_ym (ts : Z) : string :=
  let '(y, m, _) := Calendar.civil_from_days (Calendar.date ts) in
  (Calendar.pad4 y ++ "-" ++ Calendar.pad2 m)%string.

(** ISO 8601 year and week of a day: those of the Thursday of its week,
    weeks counted from the one holding the first Thursday of the year. *)
Definition iso_year_week (d : Z) : Z * Z :=
  let thursday := d - (d + 3) mod 7 + 3 in
  let '(y, _, _) := Calendar.civil_from_days thursday in
  (y, (thursday - Calendar.days_from_civil y 1 1) / 7 + 1).

(** [strftime("%G-W%V")] of a timestamp *)
Definition strftime_GV (ts : Z) : string :=
  let '(y, w) := iso_year_week (Calendar.date ts) in
  (Calendar.pad4 y ++ "-W" ++ Calendar.pad2 w)%string.

(** [strftime("%Y-%m-%d")] of a date *)
Definition strftime_ymd (d : Z) : string :=
  let '(y, m, dd) := Calendar.civil_from_days d in
  (Calendar.pad4 y ++ "-" ++ Calendar.pad2 m ++ "-" ++ Calendar.pad2 dd)%string.

Definition x_label (g : Granularity) (bucket : Z) : AxisValue :=
  match g with
  | Year => Number bucket
  | Month => Label (strftime_ym bucket)
  | Week => Label (strftime_GV bucket)
  | Day => Label (strftime_ymd bucket)
  end.
End plot_total.

(** The days a pandas timestamp (64-bit nanoseconds) can fall in, short
    of the first and last one: 1677-09-22 to 2262-04-10. *)
Definition timestamp_day (d : Z) : Prop := -106751 <= d <= 106750.

(** * Properties of the stable sort *)

Section SortingFacts.
Context {A : Type} (le : A -> A -> bool).

Lemma insert_by_perm x l : Permutation (insert_by le x l) (x :: l).
Proof.
  induction l as [|y t IH]; simpl; auto.
  destruct (le x y); auto.
  rewrite IH. apply perm_swap.
Qed.

Lemma sort_by_perm l : Permutation (sort_by le l) l.
Proof.
  induction l as [|x t IH]; simpl; auto.
  rewrite insert_by_perm. now constructor.
Qed.

Lemma sort_by_length l : length (sort_by le l) = length l.
Proof. apply Permutation_length, sort_by_perm. Qed.

Lemma sort_by_In x l : In x (sort_by le l) <-> In x l.
Proof.
  split; apply Permutation_in; [|symmetry]; apply sort_by_perm.
Qed.

Hypothesis le_total : forall x y, le x y = true \/ le y x = true.
Hypothesis le_trans : forall x y z, le x y = true -> le y z = true -> le x z = true.

Lemma insert_by_ranked before x l :
  Forall (before x) l ->
  StronglySorted (ranked le before) l ->
  StronglySorted (ranked le before) (insert_by le x l).
Proof.
  induction l as [|y t IH]; intros Hx Hs; simpl.
  - repeat constructor.
  - inversion Hx as [|? ? Hxy Hxt]; subst.
    apply StronglySorted_inv in Hs. destruct Hs as [Hst Hy].
    destruct (le x y) eqn:E.
    + constructor; [constructor; assumption|].
      constructor; [split; auto|].
      rewrite Forall_forall in *. intros z Hz. split.
      * apply le_trans with y; auto. now apply Hy.
      * intros _. now apply Hxt.
    + constructor; [now apply IH|].
      apply Forall_forall. intros z Hz.
      apply (Permutation_in _ (insert_by_perm x t)) in Hz.
      destruct Hz as [<-|Hz].
      * split; [destruct (le_total x y)|]; congruence.
      * rewrite Forall_forall in Hy. now apply Hy.
Qed.


Lemma sort_by_sorted l :
  StronglySorted (fun x y => le x y = true) (sort_by le l).
Proof.
  assert (Hl : StronglySorted (ranked le (fun _ _ => True)) (sort_by le l)).
  { induction l as [|x t IH]; simpl; [constructor|].
    apply insert_by_ranked; auto.
    apply Forall_forall. auto. }
  revert Hl. generalize (sort_by le l). intros s Hs.
  induction Hs as [|x t Hs IH Hx]; constructor; auto.
  eapply Forall_impl; [|exact Hx]. now intros y [Hy _].
Qed.
End SortingFacts.

(** * The sorts [sort_values] may be *)

Lemma descending_perm {K} (s : list (K * Z)) : Permutation (descending_by_total s) s.
Proof. apply sort_by_perm. Qed.

Lemma descending_sorted {K} (s : list (K * Z)) :
  StronglySorted (fun x y => snd y <= snd x) (descending_by_total s).
Proof.
  assert (Hs : StronglySorted (fun x y : K * Z => (snd y <=? snd x) = true)
                              (descending_by_total s)).
  { apply sort_by_sorted.
    - intros x y. rewrite !Z.leb_le. lia.
    - intros x y z. rewrite !Z.leb_le. lia. }
  induction Hs as [|x t Hs IH Hx]; constructor; auto.
  eapply Forall_impl; [|exact Hx]. intros y. apply Z.leb_le.
Qed.


(** A sort that keeps equal values in order of appearance. *)
Definition stable_sort_values : SortValues :=
  {| sort_values_desc := fun K s => descending_by_total s;
     sort_values_desc_perm := fun K s => descending_perm s;
     sort_values_desc_sorted := fun K s => descending_sorted s |}.

Lemma reversing_perm {K} (s : list (K * Z)) :
  Permutation (descending_by_total (rev s)) s.
Proof.
  rewrite descending_perm. symmetry. apply Permutation_rev.
Qed.

(** A sort that puts equal values in reverse order of appearance. *)
Definition reversing_sort_values : SortValues :=
  {| sort_values_desc := fun K s => descending_by_total (rev s);
     sort_values_desc_perm := fun K s => reversing_perm s;
     sort_values_desc_sorted := fun K s => descending_sorted (rev s) |}.

(** * The calendar and the scenario *)

Example civil_epoch : Calendar.civil_from_days 0 = (1970, 1, 1).
Proof. reflexivity. Qed.

Example civil_2021 : Calendar.days_from_civil 2021 1 1 = 18628
  /\ Calendar.civil_from_days 18628 = (2021, 1, 1)
  /\ Calendar.civil_from_days 19782 = (2024, 2, 29)
  /\ Calendar.civil_from_days (-1) = (1969, 12, 31).
Proof. repeat split; reflexivity. Qed.

Example strftime_2021 :
  Calendar.strftime_dmy (18629 * Calendar.ns_per_day + 5) = "02/01/2021"%string
  /\ Calendar.week_start (18629 * Calendar.ns_per_day + 5) = 18624 * Calendar.ns_per_day
  /\ Calendar.month_start (18629 * Calendar.ns_per_day + 5) = 18628 * Calendar.ns_per_day.
Proof. repeat split; reflexivity. Qed.

Example scenario_total {SV : SortValues} :
  aggregated_data (run scenario ["A"; "B"]%string Day (d20210101, d20210101 + 1) (1, 1))
  = [(d20210101, 2); (d20210101 + 1, 1)].
Proof. reflexivity. Qed.

Example scenario_by_agency {SV : SortValues} :
  map (fun r => (Bucket r, Agency r, Count r))
      (aggregated_by_agency
         (run scenario ["A"; "B"]%string Day (d20210101, d20210101 + 1) (1, 1)))
  = [(d20210101, "A", 1); (d20210101, "B", 1); (d20210101 + 1, "A", 1)]%string.
Proof. reflexivity. Qed.

Example scenario_rank_1_1 {SV : SortValues} :
  plot_by_agency.top_agencies
    (aggregate_by_agency Day scenario) (1, 1) = ["A"%string]
  /\ map published_date
       (article_table (run scenario ["A"; "B"]%string Day (d20210101, d20210101 + 1) (1, 1)))
     = ["02/01/2021"; "01/01/2021"]%string.
Proof. split; reflexivity. Qed.

(** A rank of zero is not a rank: the slice then starts at [-1], which
    Python counts from the end. *)
Example rank_zero_counts_from_the_end :
  plot_by_agency.top_agencies (SV := stable_sort_values)
    (aggregate_by_agency Day scenario) (0, 5)
  = ["B"%string].
Proof. reflexivity. Qed.

(** Below the number of agencies the name decides between equal totals;
    from there on the sort does. *)
Example tied_top_1 {SV : SortValues} :
  display_filtered_articles.top_agencies tied (1, 1) = ["A"%string].
Proof. reflexivity. Qed.

Example tied_top_2 :
  display_filtered_articles.top_agencies (SV := stable_sort_values) tied (1, 2)
  = ["A"; "B"]%string
  /\ display_filtered_articles.top_agencies (SV := reversing_sort_values) tied (1, 2)
     = ["B"; "A"]%string.
Proof. split; reflexivity. Qed.

(** * Properties of the pandas operations *)

Lemma sum_perm (l1 l2 : list Z) : Permutation l1 l2 -> sum l1 = sum l2.
Proof. induction 1; simpl; lia. Qed.

Lemma sum_map_add {A} (f g : A -> Z) (l : list A) :
  sum (map (fun x => f x + g x) l) = sum (map f l) + sum (map g l).
Proof. induction l as [|x t IH]; simpl; lia. Qed.

Lemma sum_map_zero {A} (f : A -> Z) (l : list A) :
  (forall x, In x l -> f x = 0) -> sum (map f l) = 0.
Proof.
  induction l as [|x t IH]; simpl; intros Hz; auto.
  rewrite Hz, IH; auto.
Qed.

Section PandasFacts.
Context {K : Type} `{OrdKey K}.

Lemma keqb_eq (x y : K) : keqb x y = true <-> x = y.
Proof. destruct (keqb_spec x y); split; congruence. Qed.

Lemma keqb_refl (x : K) : keqb x x = true.
Proof. now apply keqb_eq. Qed.

Lemma keqb_sym (x y : K) : keqb x y = keqb y x.
Proof. destruct (keqb_spec x y), (keqb_spec y x); congruence. Qed.

Lemma isin_In (x : K) (values : list K) : isin x values = true <-> In x values.
Proof.
  unfold isin. rewrite existsb_exists. split.
  - intros [y [Hy E]]. apply keqb_eq in E. now subst.
  - intros Hx. exists x. split; auto. apply keqb_refl.
Qed.

Lemma unique_In (x : K) (l : list K) : In x (unique l) <-> In x l.
Proof.
  induction l as [|y t IH]; simpl; [tauto|].
  rewrite filter_In, IH. split.
  - tauto.
  - intros [->|Hx]; auto.
    destruct (keqb_spec y x); auto.
Qed.

Lemma unique_NoDup (l : list K) : NoDup (unique l).
Proof.
  induction l as [|y t IH]; simpl; constructor.
  - rewrite filter_In. intros [_ E]. now rewrite keqb_refl in E.
  - now apply NoDup_filter.
Qed.

(** Sorting distinct labels gives a strictly ascending list. *)
Lemma sort_by_kleb_strict (l : list K) :
  NoDup l -> StronglySorted klt (sort_by kleb l).
Proof.
  intros Hnd.
  assert (Hnd' : NoDup (sort_by kleb l)).
  { eapply Permutation_NoDup; [symmetry; apply sort_by_perm|assumption]. }
  pose proof (sort_by_sorted kleb kleb_total kleb_trans l) as Hs.
  revert Hnd'. induction Hs as [|x t Hs IH Hx]; intros Hnd'; constructor.
  - apply IH. now inversion Hnd'.
  - inversion Hnd' as [|? ? Hnin _]; subst.
    rewrite Forall_forall in *. intros y Hy. split; auto.
    intros ->. contradiction.
Qed.

Lemma klt_trans (x y z : K) : klt x y -> klt y z -> klt x z.
Proof.
  intros [Hxy Nxy] [Hyz Nyz]. split.
  - eapply kleb_trans; eauto.
  - intros ->. apply Nxy. now apply kleb_antisym.
Qed.

Lemma klt_irrefl (x : K) : ~ klt x x.
Proof. intros [_ N]. now apply N. Qed.

(** A strictly ascending list is determined by its elements. *)
Lemma strict_sorted_ext (l1 l2 : list K) :
  StronglySorted klt l1 -> StronglySorted klt l2 ->
  (forall x, In x l1 <-> In x l2) -> l1 = l2.
Proof.
  intros H1. revert l2. induction H1 as [|x t1 H1 IH Hx]; intros l2 H2 Hin.
  - destruct l2 as [|y t2]; auto. exfalso. apply (Hin y). now left.
  - destruct H2 as [|y t2 H2 Hy].
    + exfalso. apply (Hin x). now left.
    + rewrite Forall_forall in Hx, Hy.
      assert (x = y) as ->.
      { destruct (proj1 (Hin x) (or_introl eq_refl)) as [E|Hx2]; auto.
        destruct (proj2 (Hin y) (or_introl eq_refl)) as [E|Hy1]; auto.
        exfalso. apply (klt_irrefl x). apply klt_trans with y; auto. }
      f_equal. apply IH; auto.
      intros z. split; intros Hz.
      * destruct (proj1 (Hin z) (or_intror Hz)) as [E|]; auto.
        subst. exfalso. apply (klt_irrefl z); auto.
      * destruct (proj2 (Hin z) (or_intror Hz)) as [E|]; auto.
        subst. exfalso. apply (klt_irrefl z); auto.
Qed.

Lemma group_keys_In (k : K) (col : list K) : In k (group_keys col) <-> In k col.
Proof. unfold group_keys. now rewrite sort_by_In, unique_In. Qed.

Lemma group_keys_sorted (col : list K) : StronglySorted klt (group_keys col).
Proof. apply sort_by_kleb_strict, unique_NoDup. Qed.

Lemma group_keys_NoDup (col : list K) : NoDup (group_keys col).
Proof.
  eapply Permutation_NoDup; [symmetry; apply sort_by_perm|apply unique_NoDup].
Qed.

Lemma group_keys_length (col : list K) :
  Z.of_nat (length (group_keys col)) = nunique col.
Proof. unfold group_keys, nunique. now rewrite sort_by_length. Qed.

Lemma group_keys_ext (c1 c2 : list K) :
  (forall k, In k c1 <-> In k c2) -> group_keys c1 = group_keys c2.
Proof.
  intros Hin. apply strict_sorted_ext; try apply group_keys_sorted.
  intros k. now rewrite !group_keys_In.
Qed.

Lemma groupby_keys {R V} (key : R -> K) (agg : list R -> V) (rows : list R) :
  map fst (groupby key agg rows) = group_keys (map key rows).
Proof.
  unfold groupby, group_keys. rewrite map_map. simpl. apply map_id.
Qed.

Lemma groupby_length {R V} (key : R -> K) (agg : list R -> V) (rows : list R) :
  Z.of_nat (length (groupby key agg rows)) = nunique (map key rows).
Proof.
  rewrite <- group_keys_length, <- (groupby_keys key agg), length_map. reflexivity.
Qed.

Lemma groupby_In {R V} (key : R -> K) (agg : list R -> V) (rows : list R) k v :
  In (k, v) (groupby key agg rows) <->
  In k (map key rows) /\ v = agg (filter (fun r => keqb (key r) k) rows).
Proof.
  unfold groupby. rewrite in_map_iff. split.
  - intros [k' [E Hk]]. inversion E; subst. split; auto.
    now apply group_keys_In.
  - intros [Hk ->]. exists k. split; auto. now apply group_keys_In.
Qed.

(** Each row falls in exactly one group. *)
Lemma sum_indicator (x : K) (ks : list K) :
  NoDup ks ->
  sum (map (fun k => if keqb x k then 1 else 0) ks) = if isin x ks then 1 else 0.
Proof.
  induction 1 as [|k t Hnin Hnd IH]; simpl; auto.
  rewrite IH. destruct (keqb_spec x k); simpl; auto.
  subst. destruct (isin k t) eqn:E; auto.
  apply isin_In in E. contradiction.
Qed.

Lemma sum_group_sizes {R} (key : R -> K) (rows : list R) (ks : list K) :
  NoDup ks ->
  sum (map (fun k => size (filter (fun r => keqb (key r) k) rows)) ks)
  = size (filter (fun r => isin (key r) ks) rows).
Proof.
  intros Hnd. induction rows as [|r t IH].
  - simpl. apply sum_map_zero. reflexivity.
  - transitivity
      (sum (map (fun k => (if keqb (key r) k then 1 else 0)
                          + size (filter (fun r => keqb (key r) k) t)) ks)).
    { f_equal. apply map_ext. intros k. cbn [filter].
      destruct (keqb (key r) k); unfold size; cbn [length]; lia. }
    rewrite sum_map_add, IH, sum_indicator by assumption.
    cbn [filter]. destruct (isin (key r) ks); unfold size; cbn [length]; lia.
Qed.

Lemma filter_all {R} (f : R -> bool) (rows : list R) :
  (forall r, In r rows -> f r = true) -> filter f rows = rows.
Proof.
  induction rows as [|r t IH]; simpl; intros Hf; auto.
  rewrite Hf by auto. f_equal. apply IH. auto.
Qed.

Lemma filter_none {R} (f : R -> bool) (rows : list R) :
  (forall r, In r rows -> f r = false) -> filter f rows = [].
Proof.
  induction rows as [|r t IH]; simpl; intros Hf; auto.
  rewrite Hf by auto. apply IH. auto.
Qed.

Lemma groupby_size_sum {R} (key : R -> K) (rows : list R) :
  sum (map snd (groupby key size rows)) = size rows.
Proof.
  unfold groupby. rewrite map_map. simpl.
  rewrite sum_group_sizes by apply group_keys_NoDup.
  f_equal. apply filter_all. intros r Hr.
  apply isin_In, group_keys_In, in_map, Hr.
Qed.

Lemma occurrences_size (k : K) (col : list K) :
  occurrences k col = size (filter (fun x => keqb x k) col).
Proof.
  unfold occurrences, size. do 2 f_equal.
  apply filter_ext. intros x. apply keqb_sym.
Qed.

Lemma value_counts_perm (col : list K) :
  Permutation (value_counts col) (map (fun k => (k, occurrences k col)) (unique col)).
Proof. apply sort_by_perm. Qed.

Lemma value_counts_sum (col : list K) :
  sum (map snd (value_counts col)) = size col.
Proof.
  rewrite (sum_perm _ _ (Permutation_map snd (value_counts_perm col))).
  rewrite map_map. simpl.
  rewrite (map_ext _ (fun k => size (filter (fun x => keqb x k) col)))
    by (intros; apply occurrences_size).
  rewrite (sum_group_sizes (fun x => x)) by apply unique_NoDup.
  f_equal. apply filter_all. intros x Hx. now apply isin_In, unique_In.
Qed.

Lemma value_counts_In (col : list K) k c :
  In (k, c) (value_counts col) <-> In k col /\ c = occurrences k col.
Proof.
  unfold value_counts. rewrite sort_by_In, in_map_iff. split.
  - intros [k' [E Hk]]. inversion E; subst. split; auto. now apply unique_In.
  - intros [Hk ->]. exists k. split; auto. now apply unique_In.
Qed.

Lemma value_counts_keys_NoDup (col : list K) : NoDup (map fst (value_counts col)).
Proof.
  eapply Permutation_NoDup.
  - symmetry. apply Permutation_map, value_counts_perm.
  - rewrite map_map. simpl. rewrite map_id. apply unique_NoDup.
Qed.

Lemma sort_index_perm {V} (s : list (K * V)) : Permutation (sort_index s) s.
Proof. apply sort_by_perm. Qed.

Lemma sort_index_sorted {V} (s : list (K * V)) :
  NoDup (map fst s) -> StronglySorted klt (map fst (sort_index s)).
Proof.
  intros Hnd.
  assert (Hnd' : NoDup (map fst (sort_index s))).
  { eapply Permutation_NoDup; [|exact Hnd].
    symmetry. apply Permutation_map, sort_index_perm. }
  assert (Hs : StronglySorted (fun x y : K * V => kleb (fst x) (fst y) = true)
                              (sort_index s)).
  { apply sort_by_sorted.
    - intros x y. apply kleb_total.
    - intros x y z. apply kleb_trans. }
  revert Hnd'. induction Hs as [|x t Hs IH Hx]; intros Hnd'; simpl; constructor.
  - apply IH. now inversion Hnd'.
  - inversion Hnd' as [|? ? Hnin _]; subst.
    rewrite Forall_forall in *. intros k Hk.
    apply in_map_iff in Hk. destruct Hk as [y [<- Hy]].
    split; auto. intros E. apply Hnin. rewrite E. now apply in_map.
Qed.
End PandasFacts.

Lemma StronglySorted_weaken {A} (R R' : A -> A -> Prop) (l : list A) :
  (forall x y, R x y -> R' x y) -> StronglySorted R l -> StronglySorted R' l.
Proof.
  intros HR. induction 1 as [|x t Hs IH Hx]; constructor; auto.
  eapply Forall_impl; [|exact Hx]. auto.
Qed.

Lemma filter_map_length {A B} (f : A -> B) (p : B -> bool) (l : list A) :
  length (filter p (map f l)) = length (filter (fun x => p (f x)) l).
Proof.
  induction l as [|x t IH]; simpl; auto.
  destruct (p (f x)); simpl; auto.
Qed.

Lemma klt_Z (x y : Z) : klt x y <-> x < y.
Proof.
  unfold klt. simpl. rewrite Z.leb_le. lia.
Qed.

Lemma klt_string (x y : string) : klt x y <-> String.ltb x y = true.
Proof.
  unfold klt, String.ltb. simpl. unfold String.leb. split.
  - intros [Hle Hne]. destruct (String.compare x y) eqn:E; auto.
    apply String_as_OT.cmp_eq in E. contradiction.
  - destruct (String.compare x y) eqn:E; try discriminate.
    intros _. split; auto. intros ->.
    assert (Heq : String.compare y y = Eq) by now apply String_as_OT.cmp_eq.
    congruence.
Qed.

(** * The filter engine *)

(** C2: the agency filter of [run] followed by [filter_data] keeps exactly
    the articles whose agency is selected and whose day lies in the
    closed range, in frame order; an empty selection or a range whose
    start is after its end gives the empty frame. *)
Theorem C2_filter_pipeline (df : DataFrame) (selection : list string) (r : Z * Z) :
  filter_data (filter_agencies df selection) r
  = filter (fun a => isin (agency a) selection
                     && ((fst r <=? day a) && (day a <=? snd r))) df
  /\ (forall a, In a (filter_data (filter_agencies df selection) r) <->
                In a df /\ In (agency a) selection /\ fst r <= day a <= snd r)
  /\ filter_data (filter_agencies df []) r = []
  /\ (snd r < fst r -> filter_data (filter_agencies df selection) r = []).
Proof.
  assert (E : filter_data (filter_agencies df selection) r
              = filter (fun a => isin (agency a) selection
                                 && ((fst r <=? day a) && (day a <=? snd r))) df).
  { unfold filter_data, filter_agencies.
    induction df as [|a t IH]; simpl; auto.
    destruct (isin (agency a) selection); simpl; rewrite IH; auto. }
  repeat split.
  - exact E.
  - rewrite E in H. apply filter_In in H. tauto.
  - rewrite E in H. apply filter_In in H. destruct H as [_ H].
    apply andb_true_iff in H. destruct H as [H _]. now apply isin_In in H.
  - rewrite E in H. apply filter_In in H. destruct H as [_ H].
    rewrite !andb_true_iff, !Z.leb_le in H. lia.
  - rewrite E in H. apply filter_In in H. destruct H as [_ H].
    rewrite !andb_true_iff, !Z.leb_le in H. lia.
  - intros [Ha [Hs Hd]]. rewrite E. apply filter_In. split; auto.
    rewrite !andb_true_iff, !Z.leb_le. repeat split; try lia.
    now apply isin_In.
  - unfold filter_data, filter_agencies. simpl.
    rewrite (filter_none _ df); auto.
  - intros Hr. rewrite E. apply filter_none. intros a _.
    destruct (fst r <=? day a) eqn:E1, (day a <=? snd r) eqn:E2;
      rewrite ?andb_false_r; auto.
    apply Z.leb_le in E1, E2. lia.
Qed.

Lemma C2_filter_pipeline_witness :
  filter_data (filter_agencies scenario ["A"%string]) (d20210101 + 1, d20210101) = [].
Proof.
  apply (C2_filter_pipeline scenario ["A"%string] (d20210101 + 1, d20210101)).
  vm_compute. reflexivity.
Defined.

(** * The aggregator *)

(** C3: the counts of the total aggregation, and the counts of the
    by-agency aggregation, each add up to the number of filtered
    articles. *)
Theorem C3_counts_sum_to_rows (g : Granularity) (filtered_df : DataFrame) :
  sum (map snd (aggregate_data g filtered_df)) = Z.of_nat (length filtered_df)
  /\ sum (map Count (aggregate_by_agency g filtered_df)) = Z.of_nat (length filtered_df).
Proof.
  split.
  - unfold aggregate_data.
    rewrite (sum_perm _ _ (Permutation_map snd (sort_index_perm _))).
    rewrite value_counts_sum. unfold size. now rewrite length_map.
  - unfold aggregate_by_agency. rewrite map_map. simpl.
    apply (groupby_size_sum (fun a => (granularity_column g a, agency a))).
Qed.

(** C5: the total aggregation has one row per bucket value present, the
    row's count is the number of articles in the bucket, and the bucket
    values are strictly ascending. *)
Theorem C5_total_aggregation (g : Granularity) (filtered_df : DataFrame) :
  StronglySorted Z.lt (map fst (aggregate_data g filtered_df))
  /\ (forall b c,
        In (b, c) (aggregate_data g filtered_df) <->
        In b (map (granularity_column g) filtered_df)
        /\ c = Z.of_nat (length (filter (fun a => granularity_column g a =? b) filtered_df))).
Proof.
  unfold aggregate_data. split.
  - apply StronglySorted_weaken with (R := klt).
    + intros x y. apply klt_Z.
    + apply sort_index_sorted, value_counts_keys_NoDup.
  - intros b c. unfold sort_index. rewrite sort_by_In, value_counts_In.
    rewrite occurrences_size. unfold size. rewrite filter_map_length.
    reflexivity.
Qed.

(** * The day slider *)

Lemma fold_left_max (t : list Z) (x : Z) :
  In (fold_left Z.max t x) (x :: t)
  /\ forall y, In y (x :: t) -> y <= fold_left Z.max t x.
Proof.
  revert x. induction t as [|z t IH]; intros x; simpl.
  - split; [auto|intros y [<-|[]]; lia].
  - destruct (IH (Z.max x z)) as [Hin Hmax]. split.
    + destruct Hin as [E|Hin]; [|auto].
      rewrite <- E.
      destruct (Z.max_spec x z) as [[_ Em]|[_ Em]]; rewrite Em; auto.
    + intros y Hy.
      assert (Hm : Z.max x z <= fold_left Z.max t (Z.max x z)) by (apply Hmax; now left).
      destruct Hy as [<-|[<-|Hy]]; try lia.
      apply Hmax. now right.
Qed.

Lemma series_max_spec (col : list Z) (m : Z) :
  series_max col = Some m -> In m col /\ forall y, In y col -> y <= m.
Proof.
  destruct col as [|x t]; simpl; [discriminate|].
  intros E. inversion E; subst. apply fold_left_max.
Qed.

Lemma day_slider_spec (df : DataFrame) (w : Slider) :
  day_slider df = Some w ->
  exists max_value,
    snd (get_min_max_values df) = Some max_value
    /\ slider_min w = Z.min (Calendar.days_from_civil 2000 1 1) max_value
    /\ slider_max w = Z.max (Calendar.days_from_civil 2010 1 1) max_value
    /\ slider_value w
       = if max_value <? Calendar.days_from_civil 2010 1 1
         then (max_value, Calendar.days_from_civil 2010 1 1)
         else (Calendar.days_from_civil 2010 1 1, max_value).
Proof.
  unfold day_slider, get_min_max_values. cbn [snd].
  destruct (series_max (map day df)) as [m|]; [|discriminate].
  intros E. inversion E; subst w. clear E. exists m.
  unfold st_slider, slider_min_value.
  change (Calendar.days_from_civil 2000 1 1) with 10957.
  change (Calendar.days_from_civil 2010 1 1) with 14610.
  cbn [fst snd slider_min slider_max slider_value].
  destruct (m <? 14610) eqn:Em;
    [apply Z.ltb_lt in Em|apply Z.ltb_ge in Em];
    cbn [fst snd]; repeat split; lia.
Qed.

Lemma slider_returns_spec (w : Slider) (value : Z * Z) :
  slider_returns w value = true
  <-> slider_min w <= fst value /\ fst value <= snd value /\ snd value <= slider_max w.
Proof.
  unfold slider_returns. rewrite !andb_true_iff, !Z.leb_le. tauto.
Qed.

(** C7, as the code has it: the slider is asked for the dates from
    2000-01-01 to the largest day of the frame, with 2010-01-01 as the
    start of its value, and widens its bounds to hold that value.  A
    range it returns starts no earlier than 2000-01-01 or the largest
    day, whichever comes first, and ends no later than 2010-01-01 or the
    largest day, whichever comes last: with a largest day from
    2010-01-01 on, between 2000-01-01 and the largest day.  The range
    between these two bounds is one it returns; the smallest day of the
    frame plays no part. *)
Theorem C7_day_slider_bounds (df : DataFrame) (selected_range : Z * Z) :
  selectable_range df selected_range = true ->
  exists max_value,
    snd (get_min_max_values df) = Some max_value
    /\ In max_value (map day df)
    /\ (forall a, In a df -> day a <= max_value)
    /\ Z.min (Calendar.days_from_civil 2000 1 1) max_value <= fst selected_range
    /\ fst selected_range <= snd selected_range
    /\ snd selected_range <= Z.max (Calendar.days_from_civil 2010 1 1) max_value
    /\ (Calendar.days_from_civil 2010 1 1 <= max_value ->
        Calendar.days_from_civil 2000 1 1 <= fst selected_range
        /\ snd selected_range <= max_value)
    /\ selectable_range df (Z.min (Calendar.days_from_civil 2000 1 1) max_value,
                            Z.max (Calendar.days_from_civil 2010 1 1) max_value)
       = true.
Proof.
  unfold selectable_range.
  destruct (day_slider df) as [w|] eqn:Ew; [|discriminate].
  intros Hs. apply slider_returns_spec in Hs.
  destruct (day_slider_spec df w Ew) as [m [Em [Hmin [Hmax _]]]].
  rewrite Hmin, Hmax in Hs.
  assert (Es : series_max (map day df) = Some m) by exact Em.
  destruct (series_max_spec _ _ Es) as [Hin Hle].
  assert (H2000 : Calendar.days_from_civil 2000 1 1 = 10957) by reflexivity.
  assert (H2010 : Calendar.days_from_civil 2010 1 1 = 14610) by reflexivity.
  exists m. split; [exact Em|]. split; [exact Hin|]. split.
  { intros a Ha. apply Hle. now apply in_map. }
  repeat split; try lia.
  apply slider_returns_spec. rewrite Hmin, Hmax. cbn [fst snd]. lia.
Qed.

Lemma C7_day_slider_bounds_witness :
  exists max_value,
    snd (get_min_max_values scenario) = Some max_value
    /\ In max_value (map day scenario)
    /\ (forall a, In a scenario -> day a <= max_value)
    /\ Z.min (Calendar.days_from_civil 2000 1 1) max_value
       <= fst (d20210101, d20210101 + 1)
    /\ fst (d20210101, d20210101 + 1) <= snd (d20210101, d20210101 + 1)
    /\ snd (d20210101, d20210101 + 1)
       <= Z.max (Calendar.days_from_civil 2010 1 1) max_value
    /\ (Calendar.days_from_civil 2010 1 1 <= max_value ->
        Calendar.days_from_civil 2000 1 1 <= fst (d20210101, d20210101 + 1)
        /\ snd (d20210101, d20210101 + 1) <= max_value)
    /\ selectable_range scenario
         (Z.min (Calendar.days_from_civil 2000 1 1) max_value,
          Z.max (Calendar.days_from_civil 2010 1 1) max_value)
       = true.
Proof.
  apply (C7_day_slider_bounds scenario (d20210101, d20210101 + 1)).
  vm_compute. reflexivity.
Defined.

(** C7 as stated fails: the day 2000-01-01 can be chosen as start although
    the first article of the scenario is from 2021-01-01. *)
Lemma C7_start_before_first_day :
  selectable_range scenario (Calendar.days_from_civil 2000 1 1, d20210101) = true
  /\ ~ clamped_to_dataset scenario (Calendar.days_from_civil 2000 1 1, d20210101).
Proof.
  split; [vm_compute; reflexivity|].
  intros [mn [mx [E [Hmin _]]]].
  vm_compute in E. inversion E; subst. vm_compute in Hmin. apply Hmin. reflexivity.
Qed.

(** * The totals behind the two rank selectors *)

Lemma filter_map_comm {A B} (f : A -> B) (p : B -> bool) (l : list A) :
  filter p (map f l) = map f (filter (fun x => p (f x)) l).
Proof.
  induction l as [|x t IH]; simpl; auto.
  destruct (p (f x)); simpl; now rewrite IH.
Qed.

Lemma count_all_present {V} (values : list (option V)) :
  (forall v, In v values -> v <> None) -> count values = size values.
Proof.
  intros Hv. unfold count, size. do 2 f_equal.
  apply filter_all. intros [v|] Hin; auto.
  exfalso. now apply (Hv None).
Qed.

Lemma groupby_eq {K} `{OrdKey K} {R V} (key : R -> K) (agg : list R -> V)
      (rows : list R) :
  groupby key agg rows
  = map (fun k => (k, agg (filter (fun r => keqb (key r) k) rows)))
        (group_keys (map key rows)).
Proof. reflexivity. Qed.

(** The chart selector sums the by-agency counts of an agency over all
    buckets: that is the number of filtered articles of the agency. *)
Lemma chart_totals_count_articles (g : Granularity) (filtered_df : DataFrame) :
  plot_by_agency.totals (aggregate_by_agency g filtered_df)
  = groupby agency size filtered_df.
Proof.
  unfold plot_by_agency.totals, aggregate_by_agency.
  set (key2 := fun a : Article => (granularity_column g a, agency a)).
  rewrite (groupby_eq Agency), (groupby_eq agency).
  assert (Hkeys : forall a, In a filtered_df ->
                            In (key2 a) (group_keys (map key2 filtered_df))).
  { intros a Ha. apply group_keys_In. now apply in_map. }
  rewrite (group_keys_ext _ (map agency filtered_df)).
  - apply map_ext. intros k. f_equal.
    rewrite (groupby_eq key2).
    rewrite map_map, filter_map_comm, map_map.
    cbn [Count Agency fst snd].
    rewrite sum_group_sizes
      by (apply NoDup_filter, group_keys_NoDup).
    f_equal. apply filter_ext_in. intros a Ha.
    destruct (keqb_spec (agency a) k) as [E|N].
    + apply isin_In, filter_In. split; [now apply Hkeys|].
      simpl. now apply String.eqb_eq.
    + destruct (isin (key2 a) _) eqn:Ei; auto.
      apply isin_In, filter_In in Ei. destruct Ei as [_ Ei].
      simpl in Ei. now apply String.eqb_eq in Ei.
  - intros k. rewrite map_map. cbn [Agency].
    rewrite <- (map_map fst snd), groupby_keys, !in_map_iff. split.
    + intros [[b a] [E Hin]]. simpl in E. subst.
      apply group_keys_In, in_map_iff in Hin.
      destruct Hin as [x [Ex Hx]]. exists x. split; auto.
      unfold key2 in Ex. congruence.
    + intros [a [E Ha]]. exists (key2 a). split; auto.
Qed.

(** The table selector counts the titles of an agency: as many as its
    articles when no title is missing. *)
Lemma table_totals_count_titles (filtered_df : DataFrame) :
  (forall a, In a filtered_df -> title a <> None) ->
  display_filtered_articles.totals filtered_df = groupby agency size filtered_df.
Proof.
  intros Ht. unfold display_filtered_articles.totals, groupby.
  apply map_ext. intros k. f_equal.
  rewrite count_all_present.
  - unfold size. now rewrite length_map.
  - intros v Hv. apply in_map_iff in Hv. destruct Hv as [a [<- Ha]].
    apply filter_In in Ha. now apply Ht.
Qed.

(** C9 fails on a frame with missing titles: the table selector counts
    the titles present, not the articles, so its totals and its ranking
    differ from those of the chart selector on the same frame. *)
Theorem C9_missing_titles_not_counted {SV : SortValues} :
  display_filtered_articles.totals untitled = [("A", 0); ("B", 1)]%string
  /\ plot_by_agency.totals (aggregate_by_agency Day untitled)
     = [("A", 2); ("B", 1)]%string
  /\ size (filter (fun a => String.eqb (agency a) "A") untitled) = 2
  /\ display_filtered_articles.top_agencies untitled (1, 1) = ["B"%string]
  /\ plot_by_agency.top_agencies (aggregate_by_agency Day untitled) (1, 1)
     = ["A"%string].
Proof. repeat split; vm_compute; reflexivity. Qed.

(** * The rank selector *)

Lemma iloc_from {A} (a b : Z) (l : list A) :
  0 <= a -> Z.of_nat (length l) <= b -> iloc a b l = skipn (Z.to_nat a) l.
Proof.
  intros Ha Hb. unfold iloc, slice_bound.
  destruct (a <? 0) eqn:Ea; [apply Z.ltb_lt in Ea; lia|].
  destruct (b <? 0) eqn:Eb; [apply Z.ltb_lt in Eb; lia|].
  rewrite (Z.min_r b) by lia.
  destruct (Z.le_gt_cases a (Z.of_nat (length l))).
  - rewrite Z.min_l by lia. apply firstn_all2. rewrite length_skipn. lia.
  - rewrite Z.min_r by lia. rewrite Z.sub_diag. simpl.
    rewrite skipn_all2 by lia. reflexivity.
Qed.

Lemma iloc_nil {A} (a b : Z) : iloc a b (@nil A) = [].
Proof. unfold iloc. rewrite skipn_nil. apply firstn_nil. Qed.

(** Whichever sort [nlargest] takes, it ranks by an ordering of the
    series descending by value. *)
Lemma ranking_descending {SV : SortValues} {K} (high : Z) (s : list (K * Z)) :
  descending_order s (ranking high s).
Proof.
  unfold descending_order, ranking.
  destruct (Z.of_nat (length s) <=? high).
  - split; [apply sort_values_desc_perm|apply sort_values_desc_sorted].
  - split; [apply descending_perm|apply descending_sorted].
Qed.

Lemma ranking_length {SV : SortValues} {K} (high : Z) (s : list (K * Z)) :
  length (ranking high s) = length s.
Proof. apply Permutation_length, ranking_descending. Qed.

Lemma sort_values_desc_length {SV : SortValues} {K} (s : list (K * Z)) :
  length (sort_values_desc s) = length s.
Proof. apply Permutation_length, sort_values_desc_perm. Qed.

Lemma nlargest_pos {SV : SortValues} {K} (n : Z) (s : list (K * Z)) :
  0 < n -> nlargest n s = firstn (Z.to_nat n) (ranking n s).
Proof.
  intros Hn. unfold nlargest, ranking.
  destruct (n <=? 0) eqn:E; [apply Z.leb_le in E; lia|].
  destruct (Z.of_nat (length s) <=? n); reflexivity.
Qed.

Lemma nlargest_nonpos {SV : SortValues} {K} (n : Z) (s : list (K * Z)) :
  n <= 0 -> nlargest n s = [].
Proof.
  intros Hn. unfold nlargest.
  destruct (n <=? 0) eqn:E; [reflexivity|apply Z.leb_gt in E; lia].
Qed.


Lemma nlargest_length {SV : SortValues} {K} (n : Z) (s : list (K * Z)) :
  0 < n -> Z.of_nat (length (nlargest n s)) <= n.
Proof.
  intros Hn. rewrite nlargest_pos by assumption.
  pose proof (firstn_le_length (Z.to_nat n) (ranking n s)). lia.
Qed.

Lemma rank_slice_ranking {SV : SortValues} {K} (low high : Z) (s : list (K * Z)) :
  1 <= low <= high ->
  iloc (low - 1) high (nlargest high s)
  = skipn (Z.to_nat (low - 1)) (firstn (Z.to_nat high) (ranking high s)).
Proof.
  intros Hr.
  rewrite iloc_from; [|lia|apply nlargest_length; lia].
  rewrite nlargest_pos by lia. reflexivity.
Qed.

Lemma rank_slice_window {SV : SortValues} {K} (low high : Z) (s : list (K * Z)) :
  1 <= low <= high ->
  map fst (iloc (low - 1) high (nlargest high s))
  = window_of low high (ranking high s).
Proof.
  intros Hr. unfold window_of. now rewrite rank_slice_ranking.
Qed.

Lemma rank_slice_clamp {SV : SortValues} {K} (low high : Z) (s : list (K * Z)) :
  1 <= low -> Z.of_nat (length s) <= high ->
  iloc (low - 1) high (nlargest high s)
  = skipn (Z.to_nat (low - 1)) (sort_values_desc s).
Proof.
  intros Hl Hh.
  destruct (Z.le_gt_cases high 0) as [H0|H0].
  - assert (s = []) as -> by (destruct s; simpl in *; auto; lia).
    rewrite nlargest_nonpos, iloc_nil by assumption.
    pose proof (sort_values_desc_length (@nil (K * Z))) as Hlen.
    destruct (sort_values_desc (@nil (K * Z))); [|discriminate].
    now rewrite skipn_nil.
  - rewrite iloc_from; [|lia|apply nlargest_length; lia].
    rewrite nlargest_pos by lia. f_equal. unfold ranking.
    destruct (Z.of_nat (length s) <=? high) eqn:E; [|apply Z.leb_gt in E; lia].
    apply firstn_all2. rewrite sort_values_desc_length. lia.
Qed.

Lemma rank_slice_empty {SV : SortValues} {K} (low high : Z) (s : list (K * Z)) :
  high < low -> iloc (low - 1) high (nlargest high s) = [].
Proof.
  intros Hr. destruct (Z.le_gt_cases high 0) as [H0|H0].
  - rewrite nlargest_nonpos by assumption. apply iloc_nil.
  - pose proof (nlargest_length high s ltac:(lia)) as Hlen.
    rewrite iloc_from; [|lia|lia].
    apply skipn_all2. lia.
Qed.

Lemma skipn_firstn_single {A} (n : nat) (l : list A) (x : A) :
  nth_error l n = Some x -> skipn n (firstn (S n) l) = [x].
Proof.
  revert l. induction n as [|n IH]; intros [|y t] Hn; simpl in *; try discriminate.
  - now inversion Hn.
  - now apply IH.
Qed.

Lemma rank_slice_single {SV : SortValues} {K} (k : Z) (s : list (K * Z)) :
  1 <= k <= Z.of_nat (length s) ->
  exists e, nth_error (ranking k s) (Z.to_nat (k - 1)) = Some e
            /\ iloc (k - 1) k (nlargest k s) = [e].
Proof.
  intros Hk.
  destruct (nth_error (ranking k s) (Z.to_nat (k - 1))) as [e|] eqn:E.
  - exists e. split; auto.
    rewrite rank_slice_ranking by lia.
    replace (Z.to_nat k) with (S (Z.to_nat (k - 1))) by lia.
    now apply skipn_firstn_single.
  - apply nth_error_None in E. rewrite ranking_length in E. lia.
Qed.

Lemma rank_slice_beyond {SV : SortValues} {K} (k : Z) (s : list (K * Z)) :
  1 <= k -> Z.of_nat (length s) < k -> iloc (k - 1) k (nlargest k s) = [].
Proof.
  intros Hk Hn. rewrite rank_slice_clamp by lia.
  apply skipn_all2. rewrite sort_values_desc_length. lia.
Qed.

Lemma filter_isin_single {R} (key : R -> string) (a : string) (rows : list R) :
  filter (fun r => isin (key r) [a]) rows = filter (fun r => String.eqb (key r) a) rows.
Proof.
  apply filter_ext. intros r. unfold isin. simpl. apply orb_false_r.
Qed.

Lemma rank_slice_all {SV : SortValues} {R} (key : R -> string)
      (agg : list R -> Z) (rows : list R) :
  filter (fun r => isin (key r)
                     (map fst (iloc (1 - 1) (nunique (map key rows))
                                    (nlargest (nunique (map key rows))
                                              (groupby key agg rows))))) rows
  = rows.
Proof.
  apply filter_all. intros r Hr.
  rewrite rank_slice_clamp; [|lia|rewrite groupby_length; lia].
  simpl. apply isin_In.
  apply (Permutation_in (l := map fst (groupby key agg rows))).
  - apply Permutation_map. symmetry. apply sort_values_desc_perm.
  - rewrite groupby_keys. apply group_keys_In. now apply in_map.
Qed.

(** ** Order statistics of the ranking *)

Lemma filter_length_perm {A} (p : A -> bool) (l l' : list A) :
  Permutation l l' -> length (filter p l) = length (filter p l').
Proof.
  induction 1 as [|x l l' _ IH|x y l|l l' l'' _ IH1 _ IH2]; simpl; auto.
  - destruct (p x); simpl; auto.
  - destruct (p x), (p y); reflexivity.
  - congruence.
Qed.

Lemma filter_length_bound {A} (p : A -> bool) (l : list A) :
  (length (filter p l) <= length l)%nat.
Proof.
  induction l as [|x t IH]; simpl; auto.
  destruct (p x); simpl; lia.
Qed.

Lemma StronglySorted_split {A} (R : A -> A -> Prop) (l1 l2 : list A) (e : A) :
  StronglySorted R (l1 ++ e :: l2) ->
  Forall (fun x => R x e) l1 /\ Forall (R e) l2.
Proof.
  induction l1 as [|x t IH]; simpl; intros Hs;
    apply StronglySorted_inv in Hs; destruct Hs as [Hs Hx].
  - split; auto.
  - destruct (IH Hs) as [H1 H2]. split; auto.
    constructor; auto.
    rewrite Forall_forall in Hx. apply Hx. apply in_or_app. right. now left.
Qed.


Lemma kth_largest {K} (s o : list (K * Z)) (n : nat) (e : K * Z) :
  descending_order s o ->
  nth_error o n = Some e ->
  (length (filter (fun x => (snd e <? snd x)%Z) s) <= n)%nat
  /\ (n < length (filter (fun x => (snd e <=? snd x)%Z) s))%nat.
Proof.
  intros [Hp Hs] Hn.
  rewrite <- (filter_length_perm _ _ _ Hp).
  rewrite <- (filter_length_perm (fun x => snd e <=? snd x) _ _ Hp).
  destruct (nth_error_split _ _ Hn) as [l1 [l2 [E Hl]]].
  rewrite E in *. clear E Hn Hp.
  apply StronglySorted_split in Hs. destruct Hs as [H1 H2].
  rewrite Forall_forall in H1, H2.
  rewrite !filter_app, !length_app. cbn [filter].
  rewrite Z.ltb_irrefl, Z.leb_refl. cbn [length]. split.
  - rewrite (filter_none (fun x => snd e <? snd x) l2).
    + pose proof (filter_length_bound (fun x => snd e <? snd x) l1). simpl. lia.
    + intros x Hx. apply Z.ltb_ge. now apply H2.
  - rewrite (filter_all (fun x => snd e <=? snd x) l1).
    + lia.
    + intros x Hx. apply Z.leb_le. now apply H1.
Qed.

Lemma rank_single_kth {SV : SortValues} {K} (k : Z) (s : list (K * Z)) :
  1 <= k <= Z.of_nat (length s) ->
  exists a, kth_most_prolific s k a
            /\ map fst (iloc (k - 1) k (nlargest k s)) = [a].
Proof.
  intros Hk. destruct (rank_slice_single k s Hk) as [[a c] [Hn E]].
  exists a. split; [|now rewrite E].
  pose proof (ranking_descending k s) as Hd.
  exists c. split.
  - apply (Permutation_in _ (proj1 Hd)). eapply nth_error_In; eauto.
  - apply (kth_largest s) in Hn; [|exact Hd]. simpl in Hn. lia.
Qed.

(** ** Totals that are all different

    When no two agencies have the same total there is one descending
    ordering, and the sort makes no difference. *)

Lemma strictly_descending {K} (o : list (K * Z)) :
  NoDup (map snd o) ->
  StronglySorted (fun x y => snd y <= snd x) o ->
  StronglySorted (fun x y => snd y < snd x) o.
Proof.
  induction o as [|x t IH]; intros Hn Hs; constructor.
  - apply IH; [now inversion Hn|now inversion Hs].
  - apply StronglySorted_inv in Hs. destruct Hs as [_ Hx].
    rewrite Forall_forall in *. intros y Hy.
    assert (snd y <> snd x).
    { intros E. inversion Hn as [|? ? Hnot _]; subst.
      apply Hnot. rewrite <- E. now apply in_map. }
    specialize (Hx y Hy). lia.
Qed.

Lemma strictly_descending_unique {K} (o1 o2 : list (K * Z)) :
  StronglySorted (fun x y => snd y < snd x) o1 ->
  StronglySorted (fun x y => snd y < snd x) o2 ->
  Permutation o1 o2 -> o1 = o2.
Proof.
  revert o2. induction o1 as [|x t IH]; intros o2 H1 H2 Hp.
  - apply Permutation_nil in Hp. now subst.
  - destruct o2 as [|y u].
    + apply Permutation_sym, Permutation_nil in Hp. discriminate.
    + apply StronglySorted_inv in H1, H2.
      destruct H1 as [H1 Hx], H2 as [H2 Hy].
      assert (E : x = y).
      { destruct (Permutation_in x Hp (or_introl eq_refl)) as [E|Hxu]; auto.
        destruct (Permutation_in y (Permutation_sym Hp) (or_introl eq_refl))
          as [E|Hyt]; auto.
        rewrite Forall_forall in Hx, Hy.
        specialize (Hx y Hyt). specialize (Hy x Hxu). lia. }
      subst y. f_equal. apply IH; auto.
      now apply Permutation_cons_inv in Hp.
Qed.

Lemma descending_order_unique {K} (s o : list (K * Z)) :
  NoDup (map snd s) -> descending_order s o -> o = descending_by_total s.
Proof.
  intros Hn [Hp Hs]. apply strictly_descending_unique.
  - apply strictly_descending; auto.
    apply (Permutation_NoDup (l := map snd s)); auto.
    apply Permutation_map. now symmetry.
  - apply strictly_descending; [|apply descending_sorted].
    apply (Permutation_NoDup (l := map snd s)); auto.
    apply Permutation_map. symmetry. apply descending_perm.
  - rewrite Hp. symmetry. apply descending_perm.
Qed.

Lemma sort_values_desc_distinct {SV : SortValues} {K} (s : list (K * Z)) :
  NoDup (map snd s) -> sort_values_desc s = descending_by_total s.
Proof.
  intros Hn. apply descending_order_unique; auto.
  split; [apply sort_values_desc_perm|apply sort_values_desc_sorted].
Qed.

Lemma nlargest_distinct {SV : SortValues} {K} (n : Z) (s : list (K * Z)) :
  NoDup (map snd s) ->
  nlargest n s = firstn (Z.to_nat n) (descending_by_total s).
Proof.
  intros Hn. destruct (Z.le_gt_cases n 0) as [H0|H0].
  - rewrite nlargest_nonpos by assumption.
    replace (Z.to_nat n) with 0%nat by lia. reflexivity.
  - rewrite nlargest_pos by assumption. f_equal.
    apply descending_order_unique; auto. apply ranking_descending.
Qed.

Lemma untitled_article_totals :
  groupby agency size untitled = [("A", 2); ("B", 1)]%string.
Proof. reflexivity. Qed.

Lemma untitled_title_totals :
  display_filtered_articles.totals untitled = [("A", 0); ("B", 1)]%string.
Proof. reflexivity. Qed.

Lemma untitled_article_totals_distinct :
  NoDup (map snd (groupby agency size untitled)).
Proof.
  rewrite untitled_article_totals. simpl.
  repeat constructor; simpl; intuition discriminate.
Qed.

Lemma untitled_title_totals_distinct :
  NoDup (map snd (display_filtered_articles.totals untitled)).
Proof.
  rewrite untitled_title_totals. simpl.
  repeat constructor; simpl; intuition discriminate.
Qed.

Lemma untitled_ordering (ordering : list (string * Z)) :
  descending_order (groupby agency size untitled) ordering ->
  ordering = [("A", 2); ("B", 1)]%string.
Proof.
  intros Hd.
  now rewrite (descending_order_unique _ _ untitled_article_totals_distinct Hd).
Qed.

(** C1 fails for the article table on a frame with missing titles: at
    the window (1, 1) the table keeps the article of "B", the agency with
    the most titles, while every ordering of the agencies descending by
    article count has "A" on top; the chart on the same frame keeps the
    rows of "A". *)
Theorem C1_table_window_counts_titles {SV : SortValues} :
  groupby agency size untitled = [("A", 2); ("B", 1)]%string
  /\ (forall ordering,
         descending_order (groupby agency size untitled) ordering ->
         window_of 1 1 ordering = ["A"%string])
  /\ rank_window 1 1 (groupby agency size untitled) = ["A"%string]
  /\ display_filtered_articles.filtered_articles untitled (1, 1)
     = filter (fun a => String.eqb (agency a) "B") untitled
  /\ Z.of_nat (length (display_filtered_articles.filtered_articles untitled (1, 1))) = 1
  /\ plot_by_agency.data (aggregate_by_agency Day untitled) (1, 1)
     = filter (fun r => String.eqb (Agency r) "A") (aggregate_by_agency Day untitled).
Proof.
  split; [reflexivity|]. split.
  - intros ordering Hd. now rewrite (untitled_ordering _ Hd).
  - repeat split; reflexivity.
Qed.

(** C4 fails for the article table on a frame with missing titles: at
    the window (2, 5), whose upper rank exceeds the two agencies present,
    the table keeps the articles of "A", while in every ordering of the
    agencies descending by article count the agencies from rank 2 on are
    "B" alone; the chart on the same frame keeps the rows of "B". *)
Theorem C4_table_clamp_counts_titles {SV : SortValues} :
  nunique (map agency untitled) = 2
  /\ (forall ordering,
         descending_order (groupby agency size untitled) ordering ->
         map fst (skipn (Z.to_nat (2 - 1)) ordering) = ["B"%string])
  /\ display_filtered_articles.filtered_articles untitled (2, 5)
     = filter (fun a => String.eqb (agency a) "A") untitled
  /\ Z.of_nat (length (display_filtered_articles.filtered_articles untitled (2, 5))) = 2
  /\ plot_by_agency.data (aggregate_by_agency Day untitled) (2, 5)
     = filter (fun r => String.eqb (Agency r) "B") (aggregate_by_agency Day untitled).
Proof.
  assert (Ht : display_filtered_articles.top_agencies untitled (2, 5) = ["A"%string]).
  { unfold display_filtered_articles.top_agencies. cbn [fst snd].
    rewrite (nlargest_distinct _ _ untitled_title_totals_distinct).
    reflexivity. }
  assert (Hc : plot_by_agency.top_agencies (aggregate_by_agency Day untitled) (2, 5)
               = ["B"%string]).
  { unfold plot_by_agency.top_agencies. cbn [fst snd].
    rewrite chart_totals_count_articles.
    rewrite (nlargest_distinct _ _ untitled_article_totals_distinct).
    reflexivity. }
  split; [reflexivity|]. split; [|split; [|split]].
  - intros ordering Hd. now rewrite (untitled_ordering _ Hd).
  - unfold display_filtered_articles.filtered_articles. rewrite Ht. reflexivity.
  - unfold display_filtered_articles.filtered_articles. rewrite Ht. reflexivity.
  - unfold plot_by_agency.data. rewrite Hc. reflexivity.
Qed.

(** C6 fails for the article table on a frame with missing titles: at
    the window (1, 1) the table keeps the article of "B", which is not a
    most prolific agency by article count: "A" is, and "A" is what the
    chart keeps on the same frame. *)
Theorem C6_table_rank_counts_titles {SV : SortValues} :
  display_filtered_articles.top_agencies untitled (1, 1) = ["B"%string]
  /\ display_filtered_articles.filtered_articles untitled (1, 1)
     = filter (fun a => String.eqb (agency a) "B") untitled
  /\ kth_most_prolific (groupby agency size untitled) 1 "A"%string
  /\ ~ kth_most_prolific (groupby agency size untitled) 1 "B"%string
  /\ plot_by_agency.top_agencies (aggregate_by_agency Day untitled) (1, 1)
     = ["A"%string].
Proof.
  split; [reflexivity|]. split; [reflexivity|]. split; [|split; [|reflexivity]].
  - exists 2. rewrite untitled_article_totals. simpl. intuition lia.
  - intros [c [Hin [Hlt _]]]. rewrite untitled_article_totals in Hin, Hlt.
    destruct Hin as [E|[E|[]]]; inversion E; subst c.
    simpl in Hlt. lia.
Qed.

(** ** The rank window by each selector's own totals *)

(** X22: for a window [1 <= low <= high] each rank selector keeps exactly
    the rows whose agency is in the window of an ordering of its own
    totals descending (the table's totals are the titles counted): the
    top [high] of the ordering without the first [low - 1]; the window
    (1, N), N the number of distinct agencies, keeps every row. *)
Theorem X22_rank_window {SV : SortValues} (data : list AgencyCount)
        (filtered_df : DataFrame) (low high : Z) :
  1 <= low <= high ->
  (exists ordering,
      descending_order (plot_by_agency.totals data) ordering
      /\ plot_by_agency.top_agencies data (low, high) = window_of low high ordering
      /\ plot_by_agency.data data (low, high)
         = filter (fun r => isin (Agency r) (window_of low high ordering)) data)
  /\ (exists ordering,
         descending_order (display_filtered_articles.totals filtered_df) ordering
         /\ display_filtered_articles.top_agencies filtered_df (low, high)
            = window_of low high ordering
         /\ display_filtered_articles.filtered_articles filtered_df (low, high)
            = filter (fun a => isin (agency a) (window_of low high ordering))
                     filtered_df)
  /\ plot_by_agency.data data (1, nunique (map Agency data)) = data
  /\ display_filtered_articles.filtered_articles
       filtered_df (1, nunique (map agency filtered_df)) = filtered_df.
Proof.
  intros Hr. split; [|split; [|split]].
  - exists (ranking high (plot_by_agency.totals data)).
    split; [apply ranking_descending|].
    unfold plot_by_agency.data, plot_by_agency.top_agencies. cbn [fst snd].
    now rewrite rank_slice_window.
  - exists (ranking high (display_filtered_articles.totals filtered_df)).
    split; [apply ranking_descending|].
    unfold display_filtered_articles.filtered_articles,
      display_filtered_articles.top_agencies. cbn [fst snd].
    now rewrite rank_slice_window.
  - apply (rank_slice_all Agency).
  - apply (rank_slice_all agency).
Qed.

Lemma X22_rank_window_witness :
  exists ordering,
    descending_order (plot_by_agency.totals (aggregate_by_agency Day three_agencies))
                     ordering
    /\ plot_by_agency.top_agencies (SV := stable_sort_values)
         (aggregate_by_agency Day three_agencies) (2, 3)
       = window_of 2 3 ordering
    /\ plot_by_agency.data (SV := stable_sort_values)
         (aggregate_by_agency Day three_agencies) (2, 3)
       = filter (fun r => isin (Agency r) (window_of 2 3 ordering))
                (aggregate_by_agency Day three_agencies).
Proof.
  apply (X22_rank_window (SV := stable_sort_values)
           (aggregate_by_agency Day three_agencies) three_agencies 2 3).
  lia.
Defined.

(** X23: a window whose upper rank is at least the number of agencies
    keeps the rows of every agency from rank [low] on in an ordering of
    the selector's own totals descending; a window with [low > high]
    keeps nothing.  The selectors are total functions: no window makes
    them fail. *)
Theorem X23_rank_window_edges {SV : SortValues} (data : list AgencyCount)
        (filtered_df : DataFrame) (low high : Z) :
  (1 <= low -> nunique (map Agency data) <= high ->
   exists ordering,
     descending_order (plot_by_agency.totals data) ordering
     /\ plot_by_agency.top_agencies data (low, high)
        = map fst (skipn (Z.to_nat (low - 1)) ordering)
     /\ plot_by_agency.data data (low, high)
        = filter (fun r => isin (Agency r)
                             (map fst (skipn (Z.to_nat (low - 1)) ordering))) data)
  /\ (1 <= low -> nunique (map agency filtered_df) <= high ->
      exists ordering,
        descending_order (display_filtered_articles.totals filtered_df) ordering
        /\ display_filtered_articles.top_agencies filtered_df (low, high)
           = map fst (skipn (Z.to_nat (low - 1)) ordering)
        /\ display_filtered_articles.filtered_articles filtered_df (low, high)
           = filter (fun a => isin (agency a)
                                (map fst (skipn (Z.to_nat (low - 1)) ordering)))
                    filtered_df)
  /\ (high < low ->
      plot_by_agency.data data (low, high) = []
      /\ display_filtered_articles.filtered_articles filtered_df (low, high) = []
      /\ display_filtered_articles.displayed_columns filtered_df (low, high) = []).
Proof.
  split; [|split].
  - intros Hl Hh. exists (sort_values_desc (plot_by_agency.totals data)).
    split; [split; [apply sort_values_desc_perm|apply sort_values_desc_sorted]|].
    unfold plot_by_agency.data, plot_by_agency.top_agencies. cbn [fst snd].
    rewrite rank_slice_clamp; auto.
    unfold plot_by_agency.totals. rewrite groupby_length. lia.
  - intros Hl Hh.
    exists (sort_values_desc (display_filtered_articles.totals filtered_df)).
    split; [split; [apply sort_values_desc_perm|apply sort_values_desc_sorted]|].
    unfold display_filtered_articles.filtered_articles,
      display_filtered_articles.top_agencies. cbn [fst snd].
    rewrite rank_slice_clamp; auto.
    unfold display_filtered_articles.totals. rewrite groupby_length. lia.
  - intros Hr.
    assert (E : display_filtered_articles.filtered_articles filtered_df (low, high) = []).
    { unfold display_filtered_articles.filtered_articles,
        display_filtered_articles.top_agencies. cbn [fst snd].
      rewrite rank_slice_empty by assumption. now apply filter_none. }
    split; [|split]; auto.
    + unfold plot_by_agency.data, plot_by_agency.top_agencies. cbn [fst snd].
      rewrite rank_slice_empty by assumption. now apply filter_none.
    + unfold display_filtered_articles.displayed_columns,
        display_filtered_articles.sorted_articles.
      now rewrite E.
Qed.

Lemma X23_rank_window_edges_witness :
  (exists ordering,
      descending_order (plot_by_agency.totals (aggregate_by_agency Day scenario))
                       ordering
      /\ plot_by_agency.top_agencies (SV := stable_sort_values)
           (aggregate_by_agency Day scenario) (2, 5)
         = map fst (skipn (Z.to_nat (2 - 1)) ordering)
      /\ plot_by_agency.data (SV := stable_sort_values)
           (aggregate_by_agency Day scenario) (2, 5)
         = filter (fun r => isin (Agency r)
                              (map fst (skipn (Z.to_nat (2 - 1)) ordering)))
                  (aggregate_by_agency Day scenario))
  /\ display_filtered_articles.filtered_articles (SV := stable_sort_values)
       scenario (3, 2) = [].
Proof.
  split.
  - apply (proj1 (X23_rank_window_edges (SV := stable_sort_values)
                    (aggregate_by_agency Day scenario) scenario 2 5)).
    + lia.
    + vm_compute. discriminate.
  - apply (proj2 (proj2 (X23_rank_window_edges (SV := stable_sort_values)
                           (aggregate_by_agency Day scenario) scenario 3 2))).
    lia.
Defined.

(** X24: for a window (k, k) with [k >= 1], each rank selector keeps the
    rows of exactly one agency, a k-th most prolific one by the
    selector's own totals (fewer than [k] agencies have a larger total,
    at least [k] have one as large), when [k] is at most the number of
    distinct agencies, and keeps nothing when [k] is larger. *)
Theorem X24_single_rank {SV : SortValues} (data : list AgencyCount)
        (filtered_df : DataFrame) (k : Z) :
  1 <= k ->
  (k <= nunique (map Agency data) ->
   exists a, kth_most_prolific (plot_by_agency.totals data) k a
             /\ plot_by_agency.top_agencies data (k, k) = [a]
             /\ plot_by_agency.data data (k, k)
                = filter (fun r => String.eqb (Agency r) a) data)
  /\ (nunique (map Agency data) < k ->
      plot_by_agency.top_agencies data (k, k) = []
      /\ plot_by_agency.data data (k, k) = [])
  /\ (k <= nunique (map agency filtered_df) ->
      exists a, kth_most_prolific (display_filtered_articles.totals filtered_df) k a
                /\ display_filtered_articles.top_agencies filtered_df (k, k) = [a]
                /\ display_filtered_articles.filtered_articles filtered_df (k, k)
                   = filter (fun r => String.eqb (agency r) a) filtered_df)
  /\ (nunique (map agency filtered_df) < k ->
      display_filtered_articles.top_agencies filtered_df (k, k) = []
      /\ display_filtered_articles.filtered_articles filtered_df (k, k) = []).
Proof.
  intros Hk. split; [|split; [|split]].
  - intros Hn.
    destruct (rank_single_kth k (plot_by_agency.totals data)) as [a [Ha E]].
    { unfold plot_by_agency.totals. rewrite groupby_length. lia. }
    exists a. split; [exact Ha|].
    unfold plot_by_agency.data, plot_by_agency.top_agencies. cbn [fst snd].
    rewrite E. split; [reflexivity|apply filter_isin_single].
  - intros Hn.
    unfold plot_by_agency.data, plot_by_agency.top_agencies. cbn [fst snd].
    rewrite rank_slice_beyond.
    + split; [reflexivity|now apply filter_none].
    + exact Hk.
    + unfold plot_by_agency.totals. rewrite groupby_length. lia.
  - intros Hn.
    destruct (rank_single_kth k (display_filtered_articles.totals filtered_df))
      as [a [Ha E]].
    { unfold display_filtered_articles.totals. rewrite groupby_length. lia. }
    exists a. split; [exact Ha|].
    unfold display_filtered_articles.filtered_articles,
      display_filtered_articles.top_agencies. cbn [fst snd].
    rewrite E. split; [reflexivity|apply filter_isin_single].
  - intros Hn.
    unfold display_filtered_articles.filtered_articles,
      display_filtered_articles.top_agencies. cbn [fst snd].
    rewrite rank_slice_beyond.
    + split; [reflexivity|now apply filter_none].
    + exact Hk.
    + unfold display_filtered_articles.totals. rewrite groupby_length. lia.
Qed.

Lemma X24_single_rank_witness :
  (exists a, kth_most_prolific
               (plot_by_agency.totals (aggregate_by_agency Day scenario)) 2 a
             /\ plot_by_agency.top_agencies (SV := stable_sort_values)
                  (aggregate_by_agency Day scenario) (2, 2) = [a]
             /\ plot_by_agency.data (SV := stable_sort_values)
                  (aggregate_by_agency Day scenario) (2, 2)
                = filter (fun r => String.eqb (Agency r) a)
                         (aggregate_by_agency Day scenario))
  /\ display_filtered_articles.filtered_articles (SV := stable_sort_values)
       scenario (3, 3) = [].
Proof.
  pose proof (X24_single_rank (SV := stable_sort_values)
                (aggregate_by_agency Day scenario) scenario 2
                ltac:(lia)) as [H2 _].
  pose proof (X24_single_rank (SV := stable_sort_values)
                (aggregate_by_agency Day scenario) scenario 3
                ltac:(lia)) as [_ [_ [_ H3]]].
  split.
  - apply H2. vm_compute. discriminate.
  - apply H3. vm_compute. reflexivity.
Defined.

(** ** Ties *)

Lemma StronglySorted_map {A B} (f : A -> B) (R : B -> B -> Prop) (l : list A) :
  StronglySorted R (map f l) -> StronglySorted (fun x y => R (f x) (f y)) l.
Proof.
  induction l as [|x t IH]; simpl; intros Hs; constructor;
    apply StronglySorted_inv in Hs; destruct Hs as [Hs Hx]; auto.
  rewrite Forall_forall in *. intros y Hy. apply Hx. now apply in_map.
Qed.








(** * The agency selector *)

(** X1: the options of the agency multiselect are strictly ascending, so
    without repetition, and are exactly the agencies of the frame. *)
Theorem X1_agency_options (df : DataFrame) :
  StronglySorted (fun a b => String.ltb a b = true) (select_agencies.agencies df)
  /\ NoDup (select_agencies.agencies df)
  /\ (forall a, In a (select_agencies.agencies df) <->
                exists row, In row df /\ agency row = a).
Proof.
  unfold select_agencies.agencies. fold (group_keys (map agency df)).
  split; [|split].
  - eapply StronglySorted_weaken; [|apply group_keys_sorted].
    intros a b. apply klt_string.
  - apply group_keys_NoDup.
  - intros a. rewrite group_keys_In, in_map_iff. split.
    + intros [row [E Hr]]. eauto.
    + intros [row [Hr E]]. eauto.
Qed.

(** X2: on a session without a stored selection, and after the reset
    button, every agency is selected and the agency filter of [run] keeps
    the whole frame. *)
Theorem X2_all_agencies_keep_frame (df : DataFrame) :
  filter_agencies df (select_agencies.session_state df None) = df
  /\ filter_agencies df (select_agencies.reset_selection df) = df.
Proof.
  assert (E : filter_agencies df (select_agencies.agencies df) = df).
  { unfold filter_agencies. apply filter_all. intros a Ha.
    apply isin_In. unfold select_agencies.agencies.
    fold (group_keys (map agency df)). apply group_keys_In. now apply in_map. }
  split; exact E.
Qed.

(** * The day range *)

Lemma fold_left_min (t : list Z) (x : Z) :
  In (fold_left Z.min t x) (x :: t)
  /\ forall y, In y (x :: t) -> fold_left Z.min t x <= y.
Proof.
  revert x. induction t as [|z t IH]; intros x; simpl.
  - split; [auto|intros y [<-|[]]; lia].
  - destruct (IH (Z.min x z)) as [Hin Hmin]. split.
    + destruct Hin as [E|Hin]; [|auto].
      rewrite <- E.
      destruct (Z.min_spec x z) as [[_ Em]|[_ Em]]; rewrite Em; auto.
    + intros y Hy.
      assert (Hm : fold_left Z.min t (Z.min x z) <= Z.min x z)
        by (apply Hmin; now left).
      destruct Hy as [<-|[<-|Hy]]; try lia.
      apply Hmin. now right.
Qed.

Lemma series_min_spec (col : list Z) (m : Z) :
  series_min col = Some m -> In m col /\ forall y, In y col -> m <= y.
Proof.
  destruct col as [|x t]; simpl; [discriminate|].
  intros E. inversion E; subst. apply fold_left_min.
Qed.

(** X3: on a frame with at least one row [get_min_max_values] returns a
    day of the frame below all others and a day of the frame above all
    others, and filtering on that range keeps the whole frame; on the
    empty frame it returns neither. *)
Theorem X3_min_max_values (df : DataFrame) :
  (df <> [] ->
   exists min_value max_value,
     get_min_max_values df = (Some min_value, Some max_value)
     /\ In min_value (map day df) /\ In max_value (map day df)
     /\ (forall a, In a df -> min_value <= day a <= max_value)
     /\ filter_data df (min_value, max_value) = df)
  /\ (df = [] -> get_min_max_values df = (None, None)).
Proof.
  split.
  - intros Hne. unfold get_min_max_values.
    destruct (series_min (map day df)) as [mn|] eqn:Emin;
      [|destruct df; [contradiction|discriminate]].
    destruct (series_max (map day df)) as [mx|] eqn:Emax;
      [|destruct df; [contradiction|discriminate]].
    destruct (series_min_spec _ _ Emin) as [Imin Hmin].
    destruct (series_max_spec _ _ Emax) as [Imax Hmax].
    assert (Hb : forall a, In a df -> mn <= day a <= mx).
    { intros a Ha. split; [apply Hmin|apply Hmax]; now apply in_map. }
    exists mn, mx. repeat split; auto; try (now apply Hb).
    unfold filter_data. apply filter_all. intros a Ha. cbn [fst snd].
    apply andb_true_iff. rewrite !Z.leb_le. now apply Hb.
  - intros ->. reflexivity.
Qed.

Lemma X3_min_max_values_witness :
  exists min_value max_value,
    get_min_max_values scenario = (Some min_value, Some max_value)
    /\ In min_value (map day scenario) /\ In max_value (map day scenario)
    /\ (forall a, In a scenario -> min_value <= day a <= max_value)
    /\ filter_data scenario (min_value, max_value) = scenario.
Proof.
  apply (X3_min_max_values scenario). discriminate.
Defined.

(** X4: every article that passes [filter_data] on a range the day
    slider returns is dated no earlier than 2000-01-01 or the last day of
    the frame, whichever comes first.  With a last day from 2010-01-01 on,
    the slider's default range runs from 2010-01-01 to the last day and
    keeps exactly the articles dated 2010-01-01 or later; with an earlier
    last day the default is the pair the other way round, from the last
    day to 2010-01-01, and keeps exactly the articles of the last day. *)
Theorem X4_day_slider_reach (df : DataFrame) (max_value : Z) :
  snd (get_min_max_values df) = Some max_value ->
  (forall selected_range,
      selectable_range df selected_range = true ->
      forall a, In a (filter_data df selected_range) ->
                Z.min (Calendar.days_from_civil 2000 1 1) max_value <= day a)
  /\ (Calendar.days_from_civil 2010 1 1 <= max_value ->
      default_range df = Some (Calendar.days_from_civil 2010 1 1, max_value)
      /\ filter_data df (Calendar.days_from_civil 2010 1 1, max_value)
         = filter (fun a => Calendar.days_from_civil 2010 1 1 <=? day a) df)
  /\ (max_value < Calendar.days_from_civil 2010 1 1 ->
      default_range df = Some (max_value, Calendar.days_from_civil 2010 1 1)
      /\ filter_data df (max_value, Calendar.days_from_civil 2010 1 1)
         = filter (fun a => day a =? max_value) df).
Proof.
  intros Em.
  assert (Es : series_max (map day df) = Some max_value) by exact Em.
  destruct (series_max_spec _ _ Es) as [_ Hle].
  assert (Hday : forall a, In a df -> day a <= max_value).
  { intros a Ha. apply Hle. now apply in_map. }
  assert (Ew : exists w, day_slider df = Some w).
  { unfold day_slider, get_min_max_values. rewrite Es. eauto. }
  destruct Ew as [w Ew].
  destruct (day_slider_spec df w Ew) as [m [Em' [Hmin [Hmax Hval]]]].
  assert (m = max_value) by congruence. subst m.
  split; [|split].
  - intros selected_range Hs a Ha.
    unfold selectable_range in Hs. rewrite Ew in Hs.
    apply slider_returns_spec in Hs. rewrite Hmin in Hs.
    unfold filter_data in Ha. apply filter_In in Ha. destruct Ha as [_ Ha].
    rewrite andb_true_iff, !Z.leb_le in Ha. lia.
  - intros H2010. split.
    + unfold default_range. rewrite Ew, Hval.
      destruct (max_value <? Calendar.days_from_civil 2010 1 1) eqn:E;
        [apply Z.ltb_lt in E; lia|reflexivity].
    + unfold filter_data. cbn [fst snd]. apply filter_ext_in. intros a Ha.
      assert (E : (day a <=? max_value) = true) by (apply Z.leb_le; auto).
      now rewrite E, andb_true_r.
  - intros H2010. split.
    + unfold default_range. rewrite Ew, Hval.
      destruct (max_value <? Calendar.days_from_civil 2010 1 1) eqn:E;
        [reflexivity|apply Z.ltb_ge in E; lia].
    + unfold filter_data. cbn [fst snd]. apply filter_ext_in. intros a Ha.
      specialize (Hday a Ha).
      destruct (Z.eqb_spec (day a) max_value) as [E|N].
      * apply andb_true_iff. rewrite !Z.leb_le. lia.
      * apply andb_false_iff. left. apply Z.leb_gt. lia.
Qed.

Lemma X4_day_slider_reach_witness :
  (default_range (load_data [ mk_article "A" (13000 * Calendar.ns_per_day) None;
                              mk_article "B" (d20210101 * Calendar.ns_per_day) None ])
   = Some (Calendar.days_from_civil 2010 1 1, d20210101)
   /\ filter_data (load_data [ mk_article "A" (13000 * Calendar.ns_per_day) None;
                               mk_article "B" (d20210101 * Calendar.ns_per_day) None ])
                  (Calendar.days_from_civil 2010 1 1, d20210101)
      = filter (fun a => Calendar.days_from_civil 2010 1 1 <=? day a)
               (load_data [ mk_article "A" (13000 * Calendar.ns_per_day) None;
                            mk_article "B" (d20210101 * Calendar.ns_per_day) None ]))
  /\ (default_range (load_data [ mk_article "A" (10000 * Calendar.ns_per_day) None;
                                 mk_article "B" (10808 * Calendar.ns_per_day) None ])
      = Some (10808, Calendar.days_from_civil 2010 1 1)
      /\ filter_data (load_data [ mk_article "A" (10000 * Calendar.ns_per_day) None;
                                  mk_article "B" (10808 * Calendar.ns_per_day) None ])
                     (10808, Calendar.days_from_civil 2010 1 1)
         = filter (fun a => day a =? 10808)
                  (load_data [ mk_article "A" (10000 * Calendar.ns_per_day) None;
                               mk_article "B" (10808 * Calendar.ns_per_day) None ])).
Proof.
  split.
  - apply (X4_day_slider_reach
             (load_data [ mk_article "A" (13000 * Calendar.ns_per_day) None;
                          mk_article "B" (d20210101 * Calendar.ns_per_day) None ])
             d20210101).
    + reflexivity.
    + vm_compute. discriminate.
  - apply (X4_day_slider_reach
             (load_data [ mk_article "A" (10000 * Calendar.ns_per_day) None;
                          mk_article "B" (10808 * Calendar.ns_per_day) None ])
             10808).
    + reflexivity.
    + vm_compute. reflexivity.
Defined.

(** * Composition of the filters *)

Lemma filter_filter_andb {A} (p q : A -> bool) (l : list A) :
  filter q (filter p l) = filter (fun x => p x && q x) l.
Proof.
  induction l as [|x t IH]; simpl; auto.
  destruct (p x); simpl; [destruct (q x)|]; now rewrite IH.
Qed.

(** X5: filtering on one day range and then on another is filtering on
    their intersection, and the agency filter and the day filter can be
    applied in either order. *)
Theorem X5_filters_compose (df : DataFrame) (selection : list string)
        (r1 r2 : Z * Z) :
  filter_data (filter_data df r1) r2
  = filter_data df (Z.max (fst r1) (fst r2), Z.min (snd r1) (snd r2))
  /\ filter_data (filter_agencies df selection) r1
     = filter_agencies (filter_data df r1) selection.
Proof.
  unfold filter_data, filter_agencies. rewrite !filter_filter_andb. split.
  - apply filter_ext. intros a. cbn [fst snd].
    destruct (fst r1 <=? day a) eqn:E1, (day a <=? snd r1) eqn:E2,
             (fst r2 <=? day a) eqn:E3, (day a <=? snd r2) eqn:E4;
      cbn [andb]; symmetry;
      rewrite ?andb_true_iff, ?andb_false_iff, ?Z.leb_le, ?Z.leb_gt;
      rewrite ?Z.leb_le, ?Z.leb_gt in *; lia.
  - apply filter_ext. intros a. apply andb_comm.
Qed.

(** * The by-agency aggregation *)

Lemma klt_pair_Z_string (b1 b2 : Z) (a1 a2 : string) :
  klt (b1, a1) (b2, a2) <-> b1 < b2 \/ (b1 = b2 /\ String.ltb a1 a2 = true).
Proof.
  rewrite <- klt_string. unfold klt. cbn [kleb OrdKey_pair]. unfold pair_leb.
  cbn [fst snd]. destruct (keqb_spec b1 b2) as [E|N].
  - subst. split.
    + intros [Hle Hne]. right. repeat split; auto. congruence.
    + intros [Hlt|[_ [Hle Hne]]]; [lia|]. split; auto. congruence.
  - change (kleb b1 b2) with (b1 <=? b2). rewrite Z.leb_le. split.
    + intros [Hle _]. left. lia.
    + intros [Hlt|[E _]]; [|contradiction]. split; [lia|congruence].
Qed.

Lemma by_agency_rows (g : Granularity) (filtered_df : DataFrame) (r : AgencyCount) :
  In r (aggregate_by_agency g filtered_df) <->
  In (Bucket r, Agency r)
     (map (fun a => (granularity_column g a, agency a)) filtered_df)
  /\ Count r = size (filter (fun a => keqb (granularity_column g a, agency a)
                                           (Bucket r, Agency r)) filtered_df).
Proof.
  unfold aggregate_by_agency. rewrite in_map_iff. split.
  - intros [[[b a] c] [E Hin]]. subst r. cbn [Bucket Agency Count fst snd].
    now apply groupby_In in Hin.
  - intros [Hk Hc]. exists ((Bucket r, Agency r), Count r). split.
    + now destruct r.
    + apply groupby_In. split; auto.
Qed.

(** X6: the by-agency aggregation has one row per (bucket, agency) pair
    that occurs among the articles, ordered by bucket and then by agency
    name; the row's count is the number of articles of that pair, so it is
    at least one. *)
Theorem X6_by_agency_aggregation (g : Granularity) (filtered_df : DataFrame) :
  StronglySorted by_bucket_then_agency (aggregate_by_agency g filtered_df)
  /\ (forall r,
        In r (aggregate_by_agency g filtered_df) <->
        (exists a, In a filtered_df
                   /\ granularity_column g a = Bucket r /\ agency a = Agency r)
        /\ Count r
           = Z.of_nat (length (filter (fun a => (granularity_column g a =? Bucket r)
                                                && String.eqb (agency a) (Agency r))
                                      filtered_df)))
  /\ (forall r, In r (aggregate_by_agency g filtered_df) -> 1 <= Count r).
Proof.
  assert (Hrows : forall r,
             In r (aggregate_by_agency g filtered_df) <->
             (exists a, In a filtered_df
                        /\ granularity_column g a = Bucket r /\ agency a = Agency r)
             /\ Count r
                = Z.of_nat (length (filter (fun a => (granularity_column g a =? Bucket r)
                                                     && String.eqb (agency a) (Agency r))
                                           filtered_df))).
  { intros r. rewrite by_agency_rows, in_map_iff. unfold size. split.
    - intros [[a [E Ha]] Hc]. split; [|exact Hc].
      exists a. inversion E. auto.
    - intros [[a [Ha [Eb Eg]]] Hc]. split; [|exact Hc].
      exists a. split; auto. congruence. }
  split; [|split; [exact Hrows|]].
  - unfold aggregate_by_agency.
    pose proof (group_keys_sorted
                  (map (fun a => (granularity_column g a, agency a)) filtered_df))
      as Hs.
    rewrite <- (groupby_keys _ size) in Hs.
    apply StronglySorted_map in Hs.
    induction Hs as [|e t Hs IH He]; simpl; constructor; auto.
    rewrite Forall_forall in *. intros r Hr.
    apply in_map_iff in Hr. destruct Hr as [e' [<- He']].
    unfold by_bucket_then_agency. cbn [Bucket Agency].
    apply klt_pair_Z_string. specialize (He e' He').
    now destruct e as [[b a] c], e' as [[b' a'] c'].
  - intros r Hr. apply Hrows in Hr. destruct Hr as [[a [Ha [Eb Eg]]] ->].
    assert (Hin : In a (filter (fun a => (granularity_column g a =? Bucket r)
                                         && String.eqb (agency a) (Agency r))
                               filtered_df)).
    { apply filter_In. split; auto.
      rewrite Eb, Eg, Z.eqb_refl, String.eqb_refl. reflexivity. }
    destruct (filter _ filtered_df); [contradiction|]. cbn [length]. lia.
Qed.

Lemma by_agency_sum_where (g : Granularity) (filtered_df : DataFrame)
      (p : Z * string -> bool) :
  sum (map Count (filter (fun r => p (Bucket r, Agency r))
                         (aggregate_by_agency g filtered_df)))
  = size (filter (fun a => p (granularity_column g a, agency a)) filtered_df).
Proof.
  unfold aggregate_by_agency.
  set (key2 := fun a : Article => (granularity_column g a, agency a)).
  rewrite (groupby_eq key2).
  rewrite map_map, filter_map_comm, map_map.
  cbn [Count Agency Bucket fst snd].
  rewrite sum_group_sizes by (apply NoDup_filter, group_keys_NoDup).
  f_equal. apply filter_ext_in. intros a Ha.
  assert (Hk : In (key2 a) (group_keys (map key2 filtered_df)))
    by (apply group_keys_In; now apply in_map).
  change (p (granularity_column g a, agency a)) with (p (key2 a)).
  destruct (p (key2 a)) eqn:Ep.
  - apply isin_In, filter_In. split; auto.
  - destruct (isin (key2 a) _) eqn:Ei; auto.
    apply isin_In, filter_In in Ei. destruct Ei as [_ Ei].
    destruct (key2 a). cbn [fst snd] in Ei. congruence.
Qed.

(** X7: the two aggregations agree bucket by bucket: the count of a row
    of the total aggregation is the sum of the by-agency counts of its
    bucket, and the buckets of the two frames are the same. *)
Theorem X7_aggregations_agree (g : Granularity) (filtered_df : DataFrame) :
  (forall b c,
      In (b, c) (aggregate_data g filtered_df) ->
      c = sum (map Count (filter (fun r => Bucket r =? b)
                                 (aggregate_by_agency g filtered_df))))
  /\ (forall b,
         In b (map fst (aggregate_data g filtered_df)) <->
         In b (map Bucket (aggregate_by_agency g filtered_df))).
Proof.
  split.
  - intros b c Hin.
    pose proof (by_agency_sum_where g filtered_df (fun k => fst k =? b)) as Hs.
    cbn [fst] in Hs. rewrite Hs. clear Hs.
    unfold aggregate_data, sort_index in Hin.
    rewrite sort_by_In, value_counts_In in Hin. destruct Hin as [_ ->].
    rewrite occurrences_size. unfold size. now rewrite filter_map_length.
  - intros b. rewrite !in_map_iff. split.
    + intros [[b' c] [E Hin]]. cbn [fst] in E. subst b'.
      unfold aggregate_data, sort_index in Hin.
      rewrite sort_by_In, value_counts_In in Hin. destruct Hin as [Hb _].
      apply in_map_iff in Hb. destruct Hb as [a [Ea Ha]].
      exists {| Bucket := b; Agency := agency a;
                Count := size (filter (fun x => keqb (granularity_column g x, agency x)
                                                     (b, agency a)) filtered_df) |}.
      split; auto. apply by_agency_rows. cbn [Bucket Agency Count]. split; auto.
      apply in_map_iff. exists a. split; auto. now rewrite Ea.
    + intros [r [E Hr]]. subst b. apply by_agency_rows in Hr.
      destruct Hr as [Hk _]. apply in_map_iff in Hk. destruct Hk as [a [Ea Ha]].
      inversion Ea as [[Eb Eg]].
      exists (Bucket r, occurrences (Bucket r) (map (granularity_column g) filtered_df)).
      split; auto. unfold aggregate_data, sort_index.
      rewrite sort_by_In, value_counts_In. split; auto.
      rewrite <- Eb. now apply in_map.
Qed.

Lemma X7_aggregations_agree_witness :
  2 = sum (map Count (filter (fun r => Bucket r =? d20210101)
                             (aggregate_by_agency Day scenario))).
Proof.
  apply (proj1 (X7_aggregations_agree Day scenario) d20210101 2).
  vm_compute. left. reflexivity.
Defined.

(** * The two rank selectors side by side *)

(** X9: on a frame without missing titles the table selector and the
    chart selector pick the same agencies, for every rank range and every
    granularity. *)
Theorem X9_chart_and_table_agree {SV : SortValues} (g : Granularity)
        (filtered_df : DataFrame) (rank_range : Z * Z) :
  (forall a, In a filtered_df -> title a <> None) ->
  display_filtered_articles.top_agencies filtered_df rank_range
  = plot_by_agency.top_agencies (aggregate_by_agency g filtered_df) rank_range.
Proof.
  intros Ht.
  unfold display_filtered_articles.top_agencies, plot_by_agency.top_agencies.
  now rewrite table_totals_count_titles, chart_totals_count_articles.
Qed.

Lemma X9_chart_and_table_agree_witness :
  display_filtered_articles.top_agencies (SV := stable_sort_values) scenario (1, 1)
  = plot_by_agency.top_agencies (SV := stable_sort_values)
      (aggregate_by_agency Week scenario) (1, 1).
Proof.
  apply (X9_chart_and_table_agree (SV := stable_sort_values) Week scenario (1, 1)).
  intros a Ha. vm_compute in Ha.
  destruct Ha as [<-|[<-|[<-|[]]]]; discriminate.
Defined.

Lemma by_agency_agencies (g : Granularity) (filtered_df : DataFrame) (k : string) :
  In k (map Agency (aggregate_by_agency g filtered_df)) <->
  In k (map agency filtered_df).
Proof.
  rewrite !in_map_iff. split.
  - intros [r [E Hr]]. apply by_agency_rows in Hr. destruct Hr as [Hk _].
    apply in_map_iff in Hk. destruct Hk as [a [Ea Ha]].
    exists a. split; auto. inversion Ea. congruence.
  - intros [a [E Ha]].
    exists {| Bucket := granularity_column g a; Agency := agency a;
              Count := size (filter (fun x => keqb (granularity_column g x, agency x)
                                                   (granularity_column g a, agency a))
                                    filtered_df) |}.
    split; auto. apply by_agency_rows. cbn [Bucket Agency Count]. split; auto.
    apply in_map_iff. now exists a.
Qed.

Lemma nunique_ext {K} `{OrdKey K} (c1 c2 : list K) :
  (forall k, In k c1 <-> In k c2) -> nunique c1 = nunique c2.
Proof.
  intros Hin. rewrite <- !group_keys_length. now rewrite (group_keys_ext c1 c2).
Qed.

(** X10: the upper end of the rank slider, [max_agencies], is the number
    of distinct agencies among the filtered articles, whatever the
    granularity, and it is the length of the totals both rank selectors
    rank. *)
Theorem X10_max_agencies {SV : SortValues} (df : DataFrame)
        (selected_agencies : list string)
        (g : Granularity) (selected_range rank_range : Z * Z) :
  max_agencies (run df selected_agencies g selected_range rank_range)
  = nunique (map agency (filter_data (filter_agencies df selected_agencies)
                                     selected_range))
  /\ max_agencies (run df selected_agencies g selected_range rank_range)
     = Z.of_nat (length (plot_by_agency.totals
                           (aggregated_by_agency
                              (run df selected_agencies g selected_range rank_range))))
  /\ max_agencies (run df selected_agencies g selected_range rank_range)
     = Z.of_nat (length (display_filtered_articles.totals
                           (filter_data (filter_agencies df selected_agencies)
                                        selected_range))).
Proof.
  cbn [run max_agencies aggregated_by_agency].
  set (filtered_df := filter_data (filter_agencies df selected_agencies) selected_range).
  assert (E : nunique (map Agency (aggregate_by_agency g filtered_df))
              = nunique (map agency filtered_df))
    by (apply nunique_ext, by_agency_agencies).
  split; [exact E|split].
  - unfold plot_by_agency.totals. now rewrite groupby_length.
  - unfold display_filtered_articles.totals. now rewrite groupby_length.
Qed.

(** * The size of a rank window *)

Lemma NoDup_firstn {A} (n : nat) (l : list A) : NoDup l -> NoDup (firstn n l).
Proof.
  intros Hnd. rewrite <- (firstn_skipn n l) in Hnd.
  now apply NoDup_app_remove_r in Hnd.
Qed.

Lemma NoDup_skipn {A} (n : nat) (l : list A) : NoDup l -> NoDup (skipn n l).
Proof.
  intros Hnd. rewrite <- (firstn_skipn n l) in Hnd.
  now apply NoDup_app_remove_l in Hnd.
Qed.

Lemma In_firstn {A} (n : nat) (l : list A) (x : A) : In x (firstn n l) -> In x l.
Proof.
  intros Hx. rewrite <- (firstn_skipn n l). apply in_or_app. now left.
Qed.

Lemma In_skipn {A} (n : nat) (l : list A) (x : A) : In x (skipn n l) -> In x l.
Proof.
  intros Hx. rewrite <- (firstn_skipn n l). apply in_or_app. now right.
Qed.

Lemma In_iloc {A} (a b : Z) (l : list A) (x : A) : In x (iloc a b l) -> In x l.
Proof. unfold iloc. intros Hx. eapply In_skipn, In_firstn, Hx. Qed.

Lemma In_nlargest {SV : SortValues} {K} (n : Z) (s : list (K * Z)) (e : K * Z) :
  In e (nlargest n s) -> In e s.
Proof.
  destruct (Z.le_gt_cases n 0) as [H0|H0].
  - rewrite nlargest_nonpos by assumption. intros [].
  - rewrite nlargest_pos by assumption.
    intros He. apply In_firstn in He.
    apply (Permutation_in _ (proj1 (ranking_descending n s))). exact He.
Qed.

Lemma rank_slice_NoDup {SV : SortValues} {K} (low high : Z) (s : list (K * Z)) :
  NoDup (map fst s) ->
  NoDup (map fst (iloc (low - 1) high (nlargest high s))).
Proof.
  intros Hnd. unfold iloc. rewrite <- firstn_map, <- skipn_map.
  apply NoDup_firstn, NoDup_skipn.
  destruct (Z.le_gt_cases high 0) as [H0|H0].
  - rewrite nlargest_nonpos by assumption. constructor.
  - rewrite nlargest_pos by assumption.
    rewrite <- firstn_map. apply NoDup_firstn.
    eapply Permutation_NoDup; [|exact Hnd].
    symmetry. apply Permutation_map, ranking_descending.
Qed.

Lemma rank_slice_length {SV : SortValues} {K} (low high : Z) (s : list (K * Z)) :
  1 <= low <= high ->
  Z.of_nat (length (iloc (low - 1) high (nlargest high s)))
  = Z.max 0 (Z.min high (Z.of_nat (length s)) - low + 1).
Proof.
  intros Hr.
  rewrite rank_slice_ranking by assumption.
  rewrite length_skipn, length_firstn, ranking_length. lia.
Qed.

(** X11: a rank window never lists an agency twice and lists only
    agencies of its input; for [1 <= low <= high] it lists
    [min high N - low + 1] agencies, N the number of distinct agencies
    (none when that is negative), in both selectors. *)
Theorem X11_rank_window_size {SV : SortValues} (data : list AgencyCount)
        (filtered_df : DataFrame) (low high : Z) :
  NoDup (plot_by_agency.top_agencies data (low, high))
  /\ NoDup (display_filtered_articles.top_agencies filtered_df (low, high))
  /\ (forall a, In a (plot_by_agency.top_agencies data (low, high)) ->
                In a (map Agency data))
  /\ (forall a, In a (display_filtered_articles.top_agencies filtered_df (low, high)) ->
                In a (map agency filtered_df))
  /\ (1 <= low <= high ->
      Z.of_nat (length (plot_by_agency.top_agencies data (low, high)))
      = Z.max 0 (Z.min high (nunique (map Agency data)) - low + 1)
      /\ Z.of_nat (length (display_filtered_articles.top_agencies
                             filtered_df (low, high)))
         = Z.max 0 (Z.min high (nunique (map agency filtered_df)) - low + 1)).
Proof.
  unfold plot_by_agency.top_agencies, display_filtered_articles.top_agencies.
  cbn [fst snd].
  split; [|split; [|split; [|split]]].
  - apply rank_slice_NoDup. unfold plot_by_agency.totals.
    rewrite groupby_keys. apply group_keys_NoDup.
  - apply rank_slice_NoDup. unfold display_filtered_articles.totals.
    rewrite groupby_keys. apply group_keys_NoDup.
  - intros a Ha. apply in_map_iff in Ha. destruct Ha as [e [<- He]].
    apply In_iloc, In_nlargest in He.
    apply (in_map fst) in He. unfold plot_by_agency.totals in He.
    rewrite groupby_keys in He. exact (proj1 (group_keys_In _ _) He).
  - intros a Ha. apply in_map_iff in Ha. destruct Ha as [e [<- He]].
    apply In_iloc, In_nlargest in He.
    apply (in_map fst) in He. unfold display_filtered_articles.totals in He.
    rewrite groupby_keys in He. exact (proj1 (group_keys_In _ _) He).
  - intros Hr. rewrite !length_map, !rank_slice_length by assumption.
    unfold plot_by_agency.totals, display_filtered_articles.totals.
    now rewrite !groupby_length.
Qed.

Lemma X11_rank_window_size_witness :
  Z.of_nat (length (plot_by_agency.top_agencies (SV := stable_sort_values)
                      (aggregate_by_agency Day scenario) (2, 7)))
  = Z.max 0 (Z.min 7 (nunique (map Agency (aggregate_by_agency Day scenario))) - 2 + 1).
Proof.
  apply (X11_rank_window_size (SV := stable_sort_values)
           (aggregate_by_agency Day scenario) scenario 2 7).
  lia.
Defined.

(** * One run of the dashboard *)

(** X12: when no article of a selected agency falls in the chosen day
    range, the run shows zero articles, two empty aggregations, no agency
    to rank, an empty chart frame and an empty table, for every rank
    range. *)
Theorem X12_nothing_in_range {SV : SortValues} (df : DataFrame)
        (selected_agencies : list string)
        (g : Granularity) (selected_range rank_range : Z * Z) :
  (forall a, In a df -> In (agency a) selected_agencies ->
             day a < fst selected_range \/ snd selected_range < day a) ->
  run df selected_agencies g selected_range rank_range
  = {| total_articles := 0;
       aggregated_data := [];
       aggregated_by_agency := [];
       max_agencies := 0;
       plotted_by_agency := [];
       article_table := [] |}.
Proof.
  intros Hout. unfold run.
  assert (E : filter_data (filter_agencies df selected_agencies) selected_range = []).
  { unfold filter_data. apply filter_none. intros a Ha.
    unfold filter_agencies in Ha. apply filter_In in Ha. destruct Ha as [Ha Hs].
    apply isin_In in Hs. specialize (Hout a Ha Hs).
    destruct (fst selected_range <=? day a) eqn:E1,
             (day a <=? snd selected_range) eqn:E2; auto.
    apply Z.leb_le in E1, E2. lia. }
  rewrite E. reflexivity.
Qed.

Lemma X12_nothing_in_range_witness :
  run (SV := stable_sort_values) scenario ["A"; "B"]%string Month
      (Calendar.days_from_civil 2000 1 1, Calendar.days_from_civil 2005 1 1) (1, 2)
  = {| total_articles := 0;
       aggregated_data := [];
       aggregated_by_agency := [];
       max_agencies := 0;
       plotted_by_agency := [];
       article_table := [] |}.
Proof.
  apply (X12_nothing_in_range (SV := stable_sort_values)
           scenario ["A"; "B"]%string Month
           (Calendar.days_from_civil 2000 1 1, Calendar.days_from_civil 2005 1 1)
           (1, 2)).
  intros a Ha _. vm_compute in Ha.
  destruct Ha as [<-|[<-|[<-|[]]]]; right; vm_compute; reflexivity.
Defined.

Lemma filter_length_le_Z {A} (p : A -> bool) (l : list A) :
  Z.of_nat (length (filter p l)) <= Z.of_nat (length l).
Proof. pose proof (filter_length_bound p l). lia. Qed.

(** X13: the article table never has more rows than the article metric
    counts, and with the rank range (1, [max_agencies]) it has exactly as
    many. *)
Theorem X13_table_within_metric {SV : SortValues} (df : DataFrame)
        (selected_agencies : list string)
        (g : Granularity) (selected_range rank_range : Z * Z) :
  Z.of_nat (length (article_table
                      (run df selected_agencies g selected_range rank_range)))
  <= total_articles (run df selected_agencies g selected_range rank_range)
  /\ Z.of_nat (length (article_table
                         (run df selected_agencies g selected_range
                              (1, max_agencies
                                    (run df selected_agencies g selected_range
                                         rank_range)))))
     = total_articles (run df selected_agencies g selected_range rank_range).
Proof.
  cbn [run article_table total_articles max_agencies].
  set (filtered_df := filter_data (filter_agencies df selected_agencies) selected_range).
  unfold display_filtered_articles.displayed_columns,
    display_filtered_articles.sorted_articles, size.
  rewrite !length_map, !sort_by_length. split.
  - apply filter_length_le_Z.
  - rewrite (nunique_ext _ (map agency filtered_df))
      by apply by_agency_agencies.
    unfold display_filtered_articles.filtered_articles,
      display_filtered_articles.top_agencies,
      display_filtered_articles.totals. cbn [fst snd].
    now rewrite (rank_slice_all agency).
Qed.

(** * Adjacent rank windows *)

Lemma ranking_agree {SV : SortValues} {K} (k high : Z) (s : list (K * Z)) :
  k <= high ->
  high < Z.of_nat (length s) \/ Z.of_nat (length s) <= k ->
  ranking k s = ranking high s.
Proof.
  intros Hk Hs. unfold ranking.
  destruct (Z.of_nat (length s) <=? k) eqn:E1,
           (Z.of_nat (length s) <=? high) eqn:E2; auto;
    rewrite ?Z.leb_le, ?Z.leb_gt in *; lia.
Qed.

Lemma rank_slice_split {SV : SortValues} {K} (low k high : Z) (s : list (K * Z)) :
  1 <= low <= k -> k <= high ->
  high < Z.of_nat (length s) \/ Z.of_nat (length s) <= k ->
  iloc (low - 1) high (nlargest high s)
  = iloc (low - 1) k (nlargest k s) ++ iloc (k + 1 - 1) high (nlargest high s).
Proof.
  intros Hl Hk Hs.
  destruct (Z.eq_dec k high) as [->|Hne].
  { rewrite (rank_slice_empty (high + 1) high) by lia. now rewrite app_nil_r. }
  rewrite !rank_slice_ranking by lia.
  rewrite (ranking_agree k high) by assumption.
  set (r := ranking high s). set (X := firstn (Z.to_nat high) r).
  replace (firstn (Z.to_nat k) r) with (firstn (Z.to_nat k) X).
  2:{ unfold X. rewrite firstn_firstn. f_equal. lia. }
  replace (Z.to_nat (k + 1 - 1)) with (Z.to_nat k) by lia.
  rewrite <- (firstn_skipn (Z.to_nat k) X) at 1.
  rewrite skipn_app. f_equal.
  destruct (Nat.le_gt_cases (Z.to_nat (low - 1)) (length (firstn (Z.to_nat k) X)))
    as [Hle|Hgt].
  - replace (Z.to_nat (low - 1) - length (firstn (Z.to_nat k) X))%nat with 0%nat by lia.
    reflexivity.
  - rewrite length_firstn in Hgt.
    rewrite (skipn_all2 (n := Z.to_nat k) X) by lia.
    apply skipn_nil.
Qed.

(** X14: for [1 <= low <= k <= high] with [high] below the number of
    agencies, or [k] at least that number, the agencies of the window
    (low, high) are those of (low, k) followed by those of (k + 1, high),
    in both selectors.  (With [k] below the number of agencies and [high]
    not, the two windows on the right are cut from two orderings, which
    may differ among equal totals.) *)
Theorem X14_adjacent_windows {SV : SortValues} (data : list AgencyCount)
        (filtered_df : DataFrame) (low k high : Z) :
  1 <= low <= k -> k <= high ->
  (high < nunique (map Agency data) \/ nunique (map Agency data) <= k ->
   plot_by_agency.top_agencies data (low, high)
   = plot_by_agency.top_agencies data (low, k)
     ++ plot_by_agency.top_agencies data (k + 1, high))
  /\ (high < nunique (map agency filtered_df)
      \/ nunique (map agency filtered_df) <= k ->
      display_filtered_articles.top_agencies filtered_df (low, high)
      = display_filtered_articles.top_agencies filtered_df (low, k)
        ++ display_filtered_articles.top_agencies filtered_df (k + 1, high)).
Proof.
  intros Hl Hk.
  unfold plot_by_agency.top_agencies, display_filtered_articles.top_agencies.
  cbn [fst snd]. rewrite <- !map_app.
  split; intros Hn; f_equal; apply rank_slice_split; auto.
  - unfold plot_by_agency.totals. now rewrite groupby_length.
  - unfold display_filtered_articles.totals. now rewrite groupby_length.
Qed.

Lemma X14_adjacent_windows_witness :
  plot_by_agency.top_agencies (SV := stable_sort_values)
    (aggregate_by_agency Day three_agencies) (1, 2)
  = plot_by_agency.top_agencies (SV := stable_sort_values)
      (aggregate_by_agency Day three_agencies) (1, 1)
    ++ plot_by_agency.top_agencies (SV := stable_sort_values)
         (aggregate_by_agency Day three_agencies) (1 + 1, 2).
Proof.
  apply (X14_adjacent_windows (SV := stable_sort_values)
           (aggregate_by_agency Day three_agencies) three_agencies 1 1 2);
    [lia|lia|].
  left. vm_compute. reflexivity.
Defined.

(** X15: with at least one agency to rank, the default rank range lists
    the [min 10 N] agencies of largest total, N the number of distinct
    agencies; when there are at most ten agencies the chart frame and the
    table keep every row. *)
Theorem X15_default_rank_range {SV : SortValues} (data : list AgencyCount)
        (filtered_df : DataFrame) :
  (1 <= nunique (map Agency data) ->
   Z.of_nat (length (plot_by_agency.top_agencies
                       data (default_rank_range (nunique (map Agency data)))))
   = Z.min 10 (nunique (map Agency data)))
  /\ (1 <= nunique (map agency filtered_df) ->
      Z.of_nat (length (display_filtered_articles.top_agencies
                          filtered_df
                          (default_rank_range (nunique (map agency filtered_df)))))
      = Z.min 10 (nunique (map agency filtered_df)))
  /\ (nunique (map Agency data) <= 10 ->
      plot_by_agency.data data (default_rank_range (nunique (map Agency data)))
      = data)
  /\ (nunique (map agency filtered_df) <= 10 ->
      display_filtered_articles.filtered_articles
        filtered_df (default_rank_range (nunique (map agency filtered_df)))
      = filtered_df).
Proof.
  unfold default_rank_range, plot_by_agency.data,
    display_filtered_articles.filtered_articles,
    plot_by_agency.top_agencies, display_filtered_articles.top_agencies.
  cbn [fst snd]. split; [|split; [|split]].
  - intros Hn. rewrite length_map, rank_slice_length by lia.
    unfold plot_by_agency.totals. rewrite groupby_length. lia.
  - intros Hn. rewrite length_map, rank_slice_length by lia.
    unfold display_filtered_articles.totals. rewrite groupby_length. lia.
  - intros Hn. rewrite Z.min_r by lia. apply (rank_slice_all Agency).
  - intros Hn. rewrite Z.min_r by lia. apply (rank_slice_all agency).
Qed.

Lemma X15_default_rank_range_witness :
  Z.of_nat (length (plot_by_agency.top_agencies (SV := stable_sort_values)
                      (aggregate_by_agency Day scenario)
                      (default_rank_range
                         (nunique (map Agency (aggregate_by_agency Day scenario))))))
  = Z.min 10 (nunique (map Agency (aggregate_by_agency Day scenario)))
  /\ display_filtered_articles.filtered_articles (SV := stable_sort_values)
       scenario (default_rank_range (nunique (map agency scenario)))
     = scenario.
Proof.
  split.
  - apply (X15_default_rank_range (SV := stable_sort_values)
             (aggregate_by_agency Day scenario) scenario).
    vm_compute. discriminate.
  - apply (X15_default_rank_range (SV := stable_sort_values)
             (aggregate_by_agency Day scenario) scenario).
    vm_compute. discriminate.
Defined.

(** * The temporal columns of [load_data] *)

Lemma load_data_In (dataset : list RawArticle) (a : Article) :
  In a (load_data dataset) ->
  day a = Calendar.date (published_at a)
  /\ week a = Calendar.week_start (published_at a)
  /\ month a = Calendar.month_start (published_at a)
  /\ year a = Calendar.year (published_at a).
Proof.
  unfold load_data. rewrite in_map_iff. intros [r [<- _]]. now cbn.
Qed.

(** X16: in a loaded frame the day column is the day the timestamp falls
    in, and the week column is midnight of a Monday, at most six days
    before that day and never after it. *)
Theorem X16_day_and_week_columns (dataset : list RawArticle) (a : Article) :
  In a (load_data dataset) ->
  day a * Calendar.ns_per_day <= published_at a
  /\ published_at a < (day a + 1) * Calendar.ns_per_day
  /\ week a mod Calendar.ns_per_day = 0
  /\ (week a / Calendar.ns_per_day + 3) mod 7 = 0
  /\ day a - 6 <= week a / Calendar.ns_per_day <= day a.
Proof.
  intros Ha. destruct (load_data_In _ _ Ha) as [Ed [Ew _]].
  rewrite Ew, Ed. unfold Calendar.week_start, Calendar.date, Calendar.ns_per_day.
  set (ts := published_at a).
  assert (Hq : ((ts / 86400000000000 - (ts / 86400000000000 + 3) mod 7)
                * 86400000000000) / 86400000000000
               = ts / 86400000000000 - (ts / 86400000000000 + 3) mod 7)
    by (apply Z.div_mul; lia).
  rewrite Hq. repeat split.
  - Z.div_mod_to_equations. lia.
  - Z.div_mod_to_equations. lia.
  - apply Z.mod_mul. lia.
  - Z.div_mod_to_equations. lia.
  - Z.div_mod_to_equations. lia.
  - Z.div_mod_to_equations. lia.
Qed.

Lemma X16_day_and_week_columns_witness :
  exists a, In a scenario
            /\ week a mod Calendar.ns_per_day = 0
            /\ day a - 6 <= week a / Calendar.ns_per_day <= day a.
Proof.
  exists (hd (Build_Article "" 0 None None 0 0 0 0) scenario).
  assert (Hin : In (hd (Build_Article "" 0 None None 0 0 0 0) scenario) scenario)
    by (left; reflexivity).
  pose proof (X16_day_and_week_columns
                [ mk_article "A" (d20210101 * Calendar.ns_per_day) (Some "a1"%string);
                  mk_article "A" ((d20210101 + 1) * Calendar.ns_per_day) (Some "a2"%string);
                  mk_article "B" (d20210101 * Calendar.ns_per_day) (Some "b1"%string) ]
                _ Hin) as [_ [_ [Hm [_ Hw]]]].
  split; [exact Hin|split; assumption].
Defined.

Lemma civil_from_days_bounds (z : Z) :
  1 <= snd (fst (Calendar.civil_from_days z)) <= 12
  /\ 1 <= snd (Calendar.civil_from_days z) <= 31.
Proof.
  unfold Calendar.civil_from_days. cbv zeta. cbn [fst snd].
  destruct (_ <? 10) eqn:E; [apply Z.ltb_lt in E|apply Z.ltb_ge in E];
    Z.div_mod_to_equations; lia.
Qed.

(** The year, month and day of a date give the date back. *)
Lemma days_from_civil_from_days (z : Z) :
  Calendar.days_from_civil (fst (fst (Calendar.civil_from_days z)))
                           (snd (fst (Calendar.civil_from_days z)))
                           (snd (Calendar.civil_from_days z)) = z.
Proof.
  unfold Calendar.civil_from_days, Calendar.days_from_civil. cbv zeta.
  cbn [fst snd].
  repeat match goal with
         | |- context [if ?b then _ else _] =>
             let E := fresh "E" in destruct b eqn:E
         end;
    rewrite ?Z.ltb_lt, ?Z.ltb_ge, ?Z.leb_le, ?Z.leb_gt in *;
    Z.div_mod_to_equations; lia.
Qed.

Lemma days_from_civil_day (y m d : Z) :
  Calendar.days_from_civil y m 1 = Calendar.days_from_civil y m d - (d - 1).
Proof. unfold Calendar.days_from_civil. cbv zeta. lia. Qed.

(** X17: in a loaded frame, with (y, m, d) the civil date of a row's day:
    the year column is y, the month is between 1 and 12, the day of the
    month between 1 and 31, (y, m, d) gives the day back, and the month
    column is midnight of the day [d - 1] days earlier, so never after the
    timestamp and less than 31 days before it. *)
Theorem X17_month_and_year_columns (dataset : list RawArticle) (a : Article)
        (y m d : Z) :
  In a (load_data dataset) ->
  Calendar.civil_from_days (day a) = (y, m, d) ->
  year a = y
  /\ 1 <= m <= 12 /\ 1 <= d <= 31
  /\ Calendar.days_from_civil y m d = day a
  /\ month a = (day a - (d - 1)) * Calendar.ns_per_day
  /\ month a <= published_at a
  /\ published_at a < month a + 31 * Calendar.ns_per_day.
Proof.
  intros Ha Ec. destruct (load_data_In _ _ Ha) as [Ed [_ [Em Ey]]].
  pose proof (civil_from_days_bounds (day a)) as Hb.
  pose proof (days_from_civil_from_days (day a)) as Hr.
  rewrite Ec in Hb, Hr. cbn [fst snd] in Hb, Hr.
  assert (Emonth : month a = (day a - (d - 1)) * Calendar.ns_per_day).
  { rewrite Em. unfold Calendar.month_start. rewrite <- Ed, Ec.
    now rewrite (days_from_civil_day y m d), Hr. }
  assert (Hday : day a * Calendar.ns_per_day <= published_at a
                 /\ published_at a < (day a + 1) * Calendar.ns_per_day).
  { rewrite Ed. unfold Calendar.date, Calendar.ns_per_day.
    split; Z.div_mod_to_equations; lia. }
  repeat split; try tauto; try lia.
  - rewrite Ey. unfold Calendar.year. now rewrite <- Ed, Ec.
  - rewrite Emonth. unfold Calendar.ns_per_day in *. lia.
  - rewrite Emonth. unfold Calendar.ns_per_day in *. lia.
Qed.

Lemma X17_month_and_year_columns_witness :
  exists a, In a scenario
            /\ year a = 2021
            /\ month a = (day a - (2 - 1)) * Calendar.ns_per_day.
Proof.
  exists (nth 1 scenario (Build_Article "" 0 None None 0 0 0 0)).
  assert (Hin : In (nth 1 scenario (Build_Article "" 0 None None 0 0 0 0)) scenario)
    by (right; left; reflexivity).
  pose proof (X17_month_and_year_columns
                [ mk_article "A" (d20210101 * Calendar.ns_per_day) (Some "a1"%string);
                  mk_article "A" ((d20210101 + 1) * Calendar.ns_per_day) (Some "a2"%string);
                  mk_article "B" (d20210101 * Calendar.ns_per_day) (Some "b1"%string) ]
                _ 2021 1 2 Hin eq_refl) as [Hy [_ [_ [_ [Hm _]]]]].
  split; [exact Hin|split; assumption].
Defined.

(** * Coarser aggregations from the day aggregation *)

Lemma sum_filter_perm {A} (f : A -> Z) (q : A -> bool) (l l' : list A) :
  Permutation l l' -> sum (map f (filter q l)) = sum (map f (filter q l')).
Proof.
  induction 1 as [|x l l' _ IH|x y l|l l' l'' _ IH1 _ IH2]; simpl; auto.
  - destruct (q x); simpl; lia.
  - destruct (q x), (q y); simpl; lia.
  - congruence.
Qed.

Lemma aggregate_data_sum_where (g : Granularity) (filtered_df : DataFrame)
      (p : Z -> bool) :
  sum (map snd (filter (fun e => p (fst e)) (aggregate_data g filtered_df)))
  = size (filter (fun a => p (granularity_column g a)) filtered_df).
Proof.
  unfold aggregate_data.
  rewrite (sum_filter_perm snd _ _ _ (sort_index_perm _)).
  rewrite (sum_filter_perm snd _ _ _ (value_counts_perm _)).
  set (col := map (granularity_column g) filtered_df).
  rewrite filter_map_comm, map_map. cbn [fst snd].
  rewrite (map_ext _ (fun k => size (filter (fun x => keqb x k) col)))
    by (intros; apply occurrences_size).
  rewrite (sum_group_sizes (fun x => x)) by (apply NoDup_filter, unique_NoDup).
  unfold col, size. rewrite filter_map_length. do 2 f_equal.
  apply filter_ext_in. intros a Ha.
  destruct (p (granularity_column g a)) eqn:Ep.
  - apply isin_In, filter_In. split; auto.
    apply unique_In. now apply in_map.
  - destruct (isin _ _) eqn:Ei; auto.
    apply isin_In, filter_In in Ei. destruct Ei as [_ Ei]. congruence.
Qed.

Lemma loaded_bucket_of_day (dataset : list RawArticle) (g : Granularity) (a : Article) :
  In a (load_data dataset) -> granularity_column g a = bucket_of_day g (day a).
Proof.
  intros Ha. destruct (load_data_In _ _ Ha) as [Ed [Ew [Em Ey]]].
  destruct g; cbn [granularity_column bucket_of_day].
  - rewrite Ey, Ed. reflexivity.
  - rewrite Em, Ed. reflexivity.
  - rewrite Ew, Ed. reflexivity.
  - reflexivity.
Qed.

(** X18: on the filtered part of a loaded frame, the count of a bucket of
    the year, month or week aggregation is the sum of the counts of the
    day aggregation over the days of that bucket. *)
Theorem X18_day_counts_roll_up (dataset : list RawArticle)
        (selected_agencies : list string) (selected_range : Z * Z)
        (g : Granularity) (b c : Z) :
  In (b, c)
     (aggregate_data g (filter_data (filter_agencies (load_data dataset)
                                                     selected_agencies)
                                    selected_range)) ->
  c = sum (map snd
             (filter (fun e => bucket_of_day g (fst e) =? b)
                     (aggregate_data Day
                        (filter_data (filter_agencies (load_data dataset)
                                                      selected_agencies)
                                     selected_range)))).
Proof.
  set (filtered_df := filter_data (filter_agencies (load_data dataset)
                                                   selected_agencies)
                                  selected_range).
  intros Hin.
  rewrite (aggregate_data_sum_where Day filtered_df
             (fun d => bucket_of_day g d =? b)).
  unfold aggregate_data, sort_index in Hin.
  rewrite sort_by_In, value_counts_In in Hin. destruct Hin as [_ ->].
  rewrite occurrences_size. unfold size. rewrite filter_map_length.
  do 2 f_equal. apply filter_ext_in. intros a Ha.
  cbn [granularity_column].
  rewrite <- (loaded_bucket_of_day dataset g a); [reflexivity|].
  unfold filtered_df, filter_data, filter_agencies in Ha.
  apply filter_In in Ha. destruct Ha as [Ha _].
  apply filter_In in Ha. tauto.
Qed.

Lemma X18_day_counts_roll_up_witness :
  3 = sum (map snd
             (filter (fun e => bucket_of_day Year (fst e) =? 2021)
                     (aggregate_data Day
                        (filter_data
                           (filter_agencies
                              (load_data
                                 [ mk_article "A" (d20210101 * Calendar.ns_per_day) None;
                                   mk_article "A" ((d20210101 + 1) * Calendar.ns_per_day) None;
                                   mk_article "B" (d20210101 * Calendar.ns_per_day) None ])
                              ["A"; "B"]%string)
                           (d20210101, d20210101 + 1))))).
Proof.
  apply (X18_day_counts_roll_up
           [ mk_article "A" (d20210101 * Calendar.ns_per_day) None;
             mk_article "A" ((d20210101 + 1) * Calendar.ns_per_day) None;
             mk_article "B" (d20210101 * Calendar.ns_per_day) None ]
           ["A"; "B"]%string (d20210101, d20210101 + 1) Year 2021 3).
  vm_compute. left. reflexivity.
Defined.

(** * The granularity selector *)






(** * The totals of the chart selector *)

(** X8: the totals the chart selector ranks are, agency by agency, the
    numbers of filtered articles; so they, and the agencies selected for
    any rank range, do not depend on the granularity. *)
Theorem X8_chart_totals {SV : SortValues} (g g' : Granularity)
        (filtered_df : DataFrame) (rank_range : Z * Z) :
  (forall a c,
      In (a, c) (plot_by_agency.totals (aggregate_by_agency g filtered_df)) <->
      In a (map agency filtered_df)
      /\ c = Z.of_nat (length (filter (fun x => String.eqb (agency x) a) filtered_df)))
  /\ plot_by_agency.totals (aggregate_by_agency g filtered_df)
     = plot_by_agency.totals (aggregate_by_agency g' filtered_df)
  /\ plot_by_agency.top_agencies (aggregate_by_agency g filtered_df) rank_range
     = plot_by_agency.top_agencies (aggregate_by_agency g' filtered_df) rank_range.
Proof.
  split; [|split].
  - intros a c. rewrite chart_totals_count_articles.
    exact (groupby_In agency size filtered_df a c).
  - now rewrite !chart_totals_count_articles.
  - unfold plot_by_agency.top_agencies.
    now rewrite !chart_totals_count_articles.
Qed.

(** * The labels of the time axis *)

Example x_labels_2021 :
  plot_total.x_label Month (bucket_of_day Month (d20210101 + 1))
  = plot_total.Label "2021-01"
  /\ plot_total.x_label Week (bucket_of_day Week (d20210101 + 1))
     = plot_total.Label "2020-W53"
  /\ plot_total.x_label Week (bucket_of_day Week (d20210101 + 3))
     = plot_total.Label "2021-W01"
  /\ plot_total.x_label Day (bucket_of_day Day (d20210101 + 1))
     = plot_total.Label "2021-01-02"
  /\ plot_total.x_label Year (bucket_of_day Year (d20210101 + 1))
     = plot_total.Number 2021.
Proof. repeat split; reflexivity. Qed.

Ltac split_ifs :=
  repeat match goal with
         | |- context [if ?b then _ else _] =>
             let E := fresh "E" in destruct b eqn:E
         end;
  rewrite ?Z.ltb_lt, ?Z.ltb_ge, ?Z.leb_le, ?Z.leb_gt in *.

Lemma civil_year_range (z : Z) :
  -110000 <= z <= 110000 ->
  1600 <= fst (fst (Calendar.civil_from_days z)) <= 2300.
Proof.
  intros Hz. unfold Calendar.civil_from_days. cbv zeta. cbn [fst snd].
  split_ifs; Z.div_mod_to_equations; lia.
Qed.

Lemma year_of_era_unique (yoe doy : Z) :
  0 <= yoe <= 399 -> 0 <= doy <= 364 ->
  ((365 * yoe + yoe / 4 - yoe / 100 + doy)
   - (365 * yoe + yoe / 4 - yoe / 100 + doy) / 1460
   + (365 * yoe + yoe / 4 - yoe / 100 + doy) / 36524
   - (365 * yoe + yoe / 4 - yoe / 100 + doy) / 146096) / 365 = yoe.
Proof. intros Hy Hd. Z.div_mod_to_equations. lia. Qed.

Lemma day_of_year_civil (y m d : Z) :
  1 <= m <= 12 -> 1 <= d <= 31 ->
  0 <= Calendar.days_from_civil y m d - Calendar.days_from_civil y 1 1 <= 365.
Proof.
  intros Hm Hd. unfold Calendar.days_from_civil. cbv zeta.
  split_ifs; Z.div_mod_to_equations; lia.
Qed.

Lemma first_day_of_month_index (mp : Z) :
  0 <= mp <= 11 ->
  (5 * ((153 * mp + 2) / 5) + 2) / 153 = mp
  /\ 0 <= (153 * mp + 2) / 5 <= 337.
Proof. intros Hm. Z.div_mod_to_equations. lia. Qed.

(** A day given by its era, its year of the era and its day of that year
    (years starting on March 1st) has the civil date read off them. *)
Lemma civil_from_days_decomposed (era yoe doy : Z) :
  0 <= yoe <= 399 -> 0 <= doy <= 364 ->
  Calendar.civil_from_days
    (era * 146097 + (365 * yoe + yoe / 4 - yoe / 100 + doy) - 719468)
  = (if (if (5 * doy + 2) / 153 <? 10
         then (5 * doy + 2) / 153 + 3 else (5 * doy + 2) / 153 - 9) <=? 2
     then yoe + era * 400 + 1 else yoe + era * 400,
     if (5 * doy + 2) / 153 <? 10
     then (5 * doy + 2) / 153 + 3 else (5 * doy + 2) / 153 - 9,
     doy - (153 * ((5 * doy + 2) / 153) + 2) / 5 + 1).
Proof.
  intros Hy Hd. unfold Calendar.civil_from_days. cbv zeta.
  set (doe := 365 * yoe + yoe / 4 - yoe / 100 + doy).
  assert (Hdoe : 0 <= doe < 146097)
    by (unfold doe; Z.div_mod_to_equations; lia).
  replace (era * 146097 + doe - 719468 + 719468) with (doe + era * 146097) by lia.
  assert (Hera : (doe + era * 146097) / 146097 = era)
    by (rewrite Z.div_add by lia; rewrite Z.div_small; lia).
  rewrite Hera.
  replace (doe + era * 146097 - era * 146097) with doe by lia.
  assert (Hyoe : (doe - doe / 1460 + doe / 36524 - doe / 146096) / 365 = yoe)
    by (unfold doe; now apply year_of_era_unique).
  rewrite Hyoe.
  replace (doe - (365 * yoe + yoe / 4 - yoe / 100)) with doy by (unfold doe; lia).
  reflexivity.
Qed.

(** The first day of a month has that year and month, and day 1. *)
Lemma civil_from_days_first_of_month (y m : Z) :
  1 <= m <= 12 ->
  Calendar.civil_from_days (Calendar.days_from_civil y m 1) = (y, m, 1).
Proof.
  intros Hm. unfold Calendar.days_from_civil. cbv zeta.
  set (ys := if m <=? 2 then y - 1 else y).
  set (mp := if 2 <? m then m - 3 else m + 9).
  assert (Hmp : 0 <= mp <= 11) by (unfold mp; split_ifs; lia).
  destruct (first_day_of_month_index mp Hmp) as [Hidx Hdoy].
  replace (ys / 400 * 146097
           + ((ys - ys / 400 * 400) * 365 + (ys - ys / 400 * 400) / 4
              - (ys - ys / 400 * 400) / 100 + ((153 * mp + 2) / 5 + 1 - 1))
           - 719468)
    with (ys / 400 * 146097
          + (365 * (ys - ys / 400 * 400) + (ys - ys / 400 * 400) / 4
             - (ys - ys / 400 * 400) / 100 + (153 * mp + 2) / 5)
          - 719468) by ring.
  assert (Hyoe : 0 <= ys - ys / 400 * 400 <= 399)
    by (generalize ys; intros; Z.div_mod_to_equations; lia).
  rewrite civil_from_days_decomposed by (assumption || lia).
  rewrite Hidx. clear Hmp Hidx Hdoy Hyoe. unfold ys, mp. clear ys mp.
  destruct (2 <? m) eqn:E1, (m <=? 2) eqn:E2; split_ifs;
    try lia; (f_equal; [f_equal|]); lia.
Qed.

Lemma digit_inj (a b : Z) :
  Calendar.digit a = Calendar.digit b -> a mod 10 = b mod 10.
Proof.
  unfold Calendar.digit. intros E. apply (f_equal nat_of_ascii) in E.
  pose proof (Z.mod_pos_bound a 10 ltac:(lia)).
  pose proof (Z.mod_pos_bound b 10 ltac:(lia)).
  rewrite !nat_ascii_embedding in E by lia. lia.
Qed.

Lemma pad2_inj (n k : Z) :
  0 <= n < 100 -> 0 <= k < 100 -> Calendar.pad2 n = Calendar.pad2 k -> n = k.
Proof.
  intros Hn Hk E. unfold Calendar.pad2 in E.
  injection E as E1 E0. apply digit_inj in E1, E0.
  Z.div_mod_to_equations. lia.
Qed.

Lemma pad4_inj (n k : Z) :
  0 <= n < 10000 -> 0 <= k < 10000 -> Calendar.pad4 n = Calendar.pad4 k -> n = k.
Proof.
  intros Hn Hk E. unfold Calendar.pad4, Calendar.pad2 in E.
  injection E as E3 E2 E1 E0. apply digit_inj in E3, E2, E1, E0.
  Z.div_mod_to_equations. lia.
Qed.

Lemma pad4_append_inj (y y' : Z) (s s' : string) :
  (Calendar.pad4 y ++ s)%string = (Calendar.pad4 y' ++ s')%string ->
  Calendar.pad4 y = Calendar.pad4 y' /\ s = s'.
Proof.
  unfold Calendar.pad4, Calendar.pad2. cbn [append].
  intros E. injection E as E3 E2 E1 E0 Es. now rewrite E3, E2, E1, E0, Es.
Qed.

Lemma pad2_append_inj (m m' : Z) (s s' : string) :
  (Calendar.pad2 m ++ s)%string = (Calendar.pad2 m' ++ s')%string ->
  Calendar.pad2 m = Calendar.pad2 m' /\ s = s'.
Proof.
  unfold Calendar.pad2. cbn [append].
  intros E. injection E as E1 E0 Es. now rewrite E1, E0, Es.
Qed.

Lemma dash_inj (c : ascii) (s s' : string) : String c s = String c s' -> s = s'.
Proof. intros E. now injection E. Qed.

Lemma civil_of_timestamp_day (d : Z) (y m e : Z) :
  -110000 <= d <= 110000 ->
  Calendar.civil_from_days d = (y, m, e) ->
  1600 <= y <= 2300 /\ 1 <= m <= 12 /\ 1 <= e <= 31
  /\ Calendar.days_from_civil y m e = d.
Proof.
  intros Hd Ec.
  pose proof (civil_year_range d Hd) as Hy.
  pose proof (civil_from_days_bounds d) as Hb.
  pose proof (days_from_civil_from_days d) as Hr.
  rewrite Ec in Hy, Hb, Hr. cbn [fst snd] in *. tauto.
Qed.

Lemma day_label_inj (d1 d2 : Z) :
  timestamp_day d1 -> timestamp_day d2 ->
  plot_total.strftime_ymd d1 = plot_total.strftime_ymd d2 -> d1 = d2.
Proof.
  unfold timestamp_day, plot_total.strftime_ymd. intros H1 H2.
  destruct (Calendar.civil_from_days d1) as [[y1 m1] e1] eqn:E1.
  destruct (Calendar.civil_from_days d2) as [[y2 m2] e2] eqn:E2.
  destruct (civil_of_timestamp_day d1 y1 m1 e1 ltac:(lia) E1) as [Hy1 [Hm1 [He1 R1]]].
  destruct (civil_of_timestamp_day d2 y2 m2 e2 ltac:(lia) E2) as [Hy2 [Hm2 [He2 R2]]].
  intros E. apply pad4_append_inj in E. destruct E as [Ey E].
  apply dash_inj in E. apply pad2_append_inj in E. destruct E as [Em E].
  apply dash_inj in E.
  apply pad4_inj in Ey; [|lia|lia]. apply pad2_inj in Em; [|lia|lia].
  apply pad2_inj in E; [|lia|lia]. congruence.
Qed.

Lemma month_label (d y m e : Z) :
  Calendar.civil_from_days d = (y, m, e) ->
  plot_total.strftime_ym (bucket_of_day Month d)
  = (Calendar.pad4 y ++ "-" ++ Calendar.pad2 m)%string.
Proof.
  intros Ec. pose proof (civil_from_days_bounds d) as Hb.
  rewrite Ec in Hb. cbn [fst snd] in Hb.
  unfold plot_total.strftime_ym, bucket_of_day, Calendar.date. rewrite Ec.
  rewrite Z.div_mul by (unfold Calendar.ns_per_day; lia).
  now rewrite civil_from_days_first_of_month.
Qed.

Lemma month_label_inj (d1 d2 : Z) :
  timestamp_day d1 -> timestamp_day d2 ->
  plot_total.strftime_ym (bucket_of_day Month d1)
  = plot_total.strftime_ym (bucket_of_day Month d2) ->
  bucket_of_day Month d1 = bucket_of_day Month d2.
Proof.
  unfold timestamp_day. intros H1 H2.
  destruct (Calendar.civil_from_days d1) as [[y1 m1] e1] eqn:E1.
  destruct (Calendar.civil_from_days d2) as [[y2 m2] e2] eqn:E2.
  rewrite (month_label d1 y1 m1 e1 E1), (month_label d2 y2 m2 e2 E2).
  destruct (civil_of_timestamp_day d1 y1 m1 e1 ltac:(lia) E1) as [Hy1 [Hm1 _]].
  destruct (civil_of_timestamp_day d2 y2 m2 e2 ltac:(lia) E2) as [Hy2 [Hm2 _]].
  intros E. apply pad4_append_inj in E. destruct E as [Ey E].
  apply dash_inj in E.
  apply pad4_inj in Ey; [|lia|lia]. apply pad2_inj in E; [|lia|lia].
  unfold bucket_of_day. rewrite E1, E2. congruence.
Qed.

(** The ISO year and week of a Monday in the range of timestamps. *)
Lemma iso_week_of_monday (mo : Z) :
  -110000 <= mo <= 109000 -> (mo + 3) mod 7 = 0 ->
  exists y w,
    plot_total.iso_year_week mo = (y, w)
    /\ 1600 <= y <= 2300 /\ 1 <= w <= 53
    /\ w = (mo + 3 - Calendar.days_from_civil y 1 1) / 7 + 1
    /\ 0 <= mo + 3 - Calendar.days_from_civil y 1 1.
Proof.
  intros Hr Hmo. unfold plot_total.iso_year_week. cbv zeta.
  rewrite Hmo. replace (mo - 0 + 3) with (mo + 3) by lia.
  destruct (Calendar.civil_from_days (mo + 3)) as [[y m] e] eqn:Ec.
  destruct (civil_of_timestamp_day (mo + 3) y m e ltac:(lia) Ec)
    as [Hy [Hm [He Hrt]]].
  pose proof (day_of_year_civil y m e Hm He) as Hdoy. rewrite Hrt in Hdoy.
  exists y, ((mo + 3 - Calendar.days_from_civil y 1 1) / 7 + 1).
  repeat split; try lia.
  - generalize dependent (Calendar.days_from_civil y 1 1). intros j Hdoy.
    Z.div_mod_to_equations. lia.
  - generalize dependent (Calendar.days_from_civil y 1 1). intros j Hdoy.
    Z.div_mod_to_equations. lia.
Qed.

Lemma week_label_inj (d1 d2 : Z) :
  timestamp_day d1 -> timestamp_day d2 ->
  plot_total.strftime_GV (bucket_of_day Week d1)
  = plot_total.strftime_GV (bucket_of_day Week d2) ->
  bucket_of_day Week d1 = bucket_of_day Week d2.
Proof.
  unfold timestamp_day. intros H1 H2.
  unfold plot_total.strftime_GV, bucket_of_day, Calendar.date.
  rewrite !Z.div_mul by (unfold Calendar.ns_per_day; lia).
  set (mo1 := d1 - (d1 + 3) mod 7). set (mo2 := d2 - (d2 + 3) mod 7).
  assert (Hm1 : (mo1 + 3) mod 7 = 0 /\ d1 - 6 <= mo1 <= d1)
    by (unfold mo1; Z.div_mod_to_equations; lia).
  assert (Hm2 : (mo2 + 3) mod 7 = 0 /\ d2 - 6 <= mo2 <= d2)
    by (unfold mo2; Z.div_mod_to_equations; lia).
  clearbody mo1 mo2.
  destruct (iso_week_of_monday mo1 ltac:(lia) (proj1 Hm1))
    as [y1 [w1 [E1 [Hy1 [Hw1 [Ew1 Hp1]]]]]].
  destruct (iso_week_of_monday mo2 ltac:(lia) (proj1 Hm2))
    as [y2 [w2 [E2 [Hy2 [Hw2 [Ew2 Hp2]]]]]].
  rewrite E1, E2. intros E. apply pad4_append_inj in E. destruct E as [Ey E].
  do 2 apply dash_inj in E.
  apply pad4_inj in Ey; [|lia|lia]. apply pad2_inj in E; [|lia|lia].
  subst y2. f_equal.
  generalize dependent (Calendar.days_from_civil y1 1 1). intros j.
  intros. Z.div_mod_to_equations. lia.
Qed.

Lemma Label_inj (s s' : string) :
  plot_total.Label s = plot_total.Label s' -> s = s'.
Proof. intros E. now injection E. Qed.

Lemma Number_inj (n n' : Z) :
  plot_total.Number n = plot_total.Number n' -> n = n'.
Proof. intros E. now injection E. Qed.

Lemma x_label_separates (g : Granularity) (d1 d2 : Z) :
  timestamp_day d1 -> timestamp_day d2 ->
  plot_total.x_label g (bucket_of_day g d1)
  = plot_total.x_label g (bucket_of_day g d2) ->
  bucket_of_day g d1 = bucket_of_day g d2.
Proof.
  intros H1 H2. destruct g; unfold plot_total.x_label; intros E.
  - now apply Number_inj.
  - apply Label_inj in E. now apply month_label_inj.
  - apply Label_inj in E. now apply week_label_inj.
  - apply Label_inj in E. now apply day_label_inj.
Qed.

(** X20: for days in the range of timestamps, two buckets of a
    granularity that get the same axis label are the same bucket: the
    relabelling of [plot_total] and [plot_by_agency] never gives two
    buckets one label. *)
Theorem X20_axis_labels_separate_buckets (g : Granularity) (d1 d2 : Z) :
  timestamp_day d1 -> timestamp_day d2 ->
  plot_total.x_label g (bucket_of_day g d1)
  = plot_total.x_label g (bucket_of_day g d2) ->
  bucket_of_day g d1 = bucket_of_day g d2.
Proof. exact (x_label_separates g d1 d2). Qed.

Lemma X20_axis_labels_separate_buckets_witness :
  bucket_of_day Week d20210101 = bucket_of_day Week (d20210101 + 2).
Proof.
  apply (X20_axis_labels_separate_buckets Week d20210101 (d20210101 + 2)).
  - unfold timestamp_day. vm_compute. split; discriminate.
  - unfold timestamp_day. vm_compute. split; discriminate.
  - reflexivity.
Defined.

Lemma NoDup_map_on {A B} (f : A -> B) (l : list A) :
  NoDup l ->
  (forall x y, In x l -> In y l -> f x = f y -> x = y) ->
  NoDup (map f l).
Proof.
  induction 1 as [|x t Hnin Hnd IH]; intros Hinj; simpl; constructor.
  - intros Hin. apply in_map_iff in Hin. destruct Hin as [y [Ey Hy]].
    apply Hnin. rewrite (Hinj x y); auto; [now left|now right].
  - apply IH. intros a b Ha Hb. apply Hinj; now right.
Qed.

Lemma aggregate_data_keys_NoDup (g : Granularity) (filtered_df : DataFrame) :
  NoDup (map fst (aggregate_data g filtered_df)).
Proof.
  unfold aggregate_data. eapply Permutation_NoDup.
  - symmetry. apply Permutation_map, sort_index_perm.
  - apply value_counts_keys_NoDup.
Qed.

Lemma filtered_loaded_row (dataset : list RawArticle) (selection : list string)
      (r : Z * Z) (g : Granularity) (a : Article) :
  (forall raw, In raw dataset ->
               timestamp_day (Calendar.date (raw_published_at raw))) ->
  In a (filter_data (filter_agencies (load_data dataset) selection) r) ->
  granularity_column g a = bucket_of_day g (day a) /\ timestamp_day (day a).
Proof.
  intros Hts Ha. unfold filter_data, filter_agencies in Ha.
  apply filter_In in Ha. destruct Ha as [Ha _].
  apply filter_In in Ha. destruct Ha as [Ha _]. split.
  - now apply (loaded_bucket_of_day dataset).
  - unfold load_data in Ha. apply in_map_iff in Ha.
    destruct Ha as [raw [<- Hraw]]. cbn [day]. now apply Hts.
Qed.

(** X21: on the filtered part of a loaded frame whose timestamps are in
    range, no two rows of the total aggregation get the same axis label,
    and no two rows of one agency in the by-agency aggregation do: every
    bucket is a point of its own on each line of the charts. *)
Theorem X21_chart_points_distinct (dataset : list RawArticle)
        (selected_agencies : list string) (selected_range : Z * Z)
        (g : Granularity) :
  (forall raw, In raw dataset ->
               timestamp_day (Calendar.date (raw_published_at raw))) ->
  NoDup (map (fun row => plot_total.x_label g (fst row))
             (aggregate_data g
                (filter_data (filter_agencies (load_data dataset) selected_agencies)
                             selected_range)))
  /\ (forall r1 r2,
         In r1 (aggregate_by_agency g
                  (filter_data (filter_agencies (load_data dataset) selected_agencies)
                               selected_range)) ->
         In r2 (aggregate_by_agency g
                  (filter_data (filter_agencies (load_data dataset) selected_agencies)
                               selected_range)) ->
         Agency r1 = Agency r2 ->
         plot_total.x_label g (Bucket r1) = plot_total.x_label g (Bucket r2) ->
         r1 = r2).
Proof.
  intros Hts.
  set (filtered_df := filter_data (filter_agencies (load_data dataset)
                                                   selected_agencies)
                                  selected_range).
  assert (Hrow : forall a, In a filtered_df ->
                           granularity_column g a = bucket_of_day g (day a)
                           /\ timestamp_day (day a))
    by (intros a Ha; now apply (filtered_loaded_row dataset selected_agencies
                                                    selected_range)).
  split.
  - rewrite <- (map_map fst (plot_total.x_label g)).
    apply NoDup_map_on; [apply aggregate_data_keys_NoDup|].
    intros b1 b2 Hb1 Hb2 E.
    apply in_map_iff in Hb1, Hb2.
    destruct Hb1 as [[b1' c1] [<- Hin1]]. destruct Hb2 as [[b2' c2] [<- Hin2]].
    cbn [fst] in *.
    unfold aggregate_data, sort_index in Hin1, Hin2.
    rewrite sort_by_In, value_counts_In in Hin1, Hin2.
    destruct Hin1 as [Hin1 _]. destruct Hin2 as [Hin2 _].
    apply in_map_iff in Hin1, Hin2.
    destruct Hin1 as [a1 [<- Ha1]]. destruct Hin2 as [a2 [<- Ha2]].
    destruct (Hrow a1 Ha1) as [E1 T1]. destruct (Hrow a2 Ha2) as [E2 T2].
    rewrite E1, E2 in *. now apply x_label_separates.
  - intros r1 r2 H1 H2 Eag El.
    apply by_agency_rows in H1, H2.
    destruct H1 as [K1 C1]. destruct H2 as [K2 C2].
    apply in_map_iff in K1, K2.
    destruct K1 as [a1 [Ek1 Ha1]]. destruct K2 as [a2 [Ek2 Ha2]].
    assert (Eb1 : Bucket r1 = bucket_of_day g (day a1)).
    { destruct (Hrow a1 Ha1) as [E1 _]. rewrite <- E1. congruence. }
    assert (Eb2 : Bucket r2 = bucket_of_day g (day a2)).
    { destruct (Hrow a2 Ha2) as [E2 _]. rewrite <- E2. congruence. }
    assert (Eb : Bucket r1 = Bucket r2).
    { rewrite Eb1, Eb2 in El |- *.
      apply x_label_separates; auto; now apply Hrow. }
    destruct r1 as [b1 g1 c1], r2 as [b2 g2 c2]. cbn [Bucket Agency Count] in *.
    clear Eb1 Eb2 Ek1 Ek2 El. subst b2 g2. now rewrite C1, C2.
Qed.

Lemma X21_chart_points_distinct_witness :
  NoDup (map (fun row => plot_total.x_label Week (fst row))
             (aggregate_data Week
                (filter_data
                   (filter_agencies
                      (load_data
                         [ mk_article "A" (d20210101 * Calendar.ns_per_day) None;
                           mk_article "B" ((d20210101 + 3) * Calendar.ns_per_day) None ])
                      ["A"; "B"]%string)
                   (d20210101, d20210101 + 3)))).
Proof.
  apply (X21_chart_points_distinct
           [ mk_article "A" (d20210101 * Calendar.ns_per_day) None;
             mk_article "B" ((d20210101 + 3) * Calendar.ns_per_day) None ]
           ["A"; "B"]%string (d20210101, d20210101 + 3) Week).
  intros raw [<-|[<-|[]]]; unfold timestamp_day; vm_compute; split; discriminate.
Defined.

(** * The article table *)

Lemma sort_key_table_order (a b : Article) :
  display_filtered_articles.sort_key a b = true <-> table_order a b.
Proof.
  unfold display_filtered_articles.sort_key, table_order.
  destruct (Z.eqb_spec (published_at a) (published_at b)) as [E|N]; simpl.
  - split; [intros Hk; right; auto|intros [Hlt|[_ Hk]]; [lia|auto]].
  - rewrite Z.leb_le. split; [intros Hle; left; lia|intros [Hlt|[E _]]; [lia|contradiction]].
Qed.

Lemma sort_key_total (a b : Article) :
  display_filtered_articles.sort_key a b = true
  \/ display_filtered_articles.sort_key b a = true.
Proof.
  rewrite !sort_key_table_order. unfold table_order.
  destruct (Z.lt_trichotomy (published_at a) (published_at b)) as [Hlt|[E|Hgt]].
  - right. now left.
  - destruct (String.leb_total (agency a) (agency b)); [left|right]; right; auto.
  - left. now left.
Qed.

Lemma sort_key_trans (a b c : Article) :
  display_filtered_articles.sort_key a b = true ->
  display_filtered_articles.sort_key b c = true ->
  display_filtered_articles.sort_key a c = true.
Proof.
  rewrite !sort_key_table_order. unfold table_order.
  intros [H1|[E1 L1]] [H2|[E2 L2]]; try (left; lia).
  right. split; [lia|]. eapply string_leb_trans; eauto.
Qed.

Lemma strftime_dmy_length (ts : Z) :
  String.length (Calendar.strftime_dmy ts) = 10%nat.
Proof.
  unfold Calendar.strftime_dmy.
  destruct (Calendar.civil_from_days (Calendar.date ts)) as [[y m] d].
  reflexivity.
Qed.

Lemma digit_value_digit (n : Z) : digit_value (Calendar.digit n) = n mod 10.
Proof.
  unfold digit_value, Calendar.digit.
  pose proof (Z.mod_pos_bound n 10 ltac:(lia)).
  rewrite nat_ascii_embedding by lia. lia.
Qed.

Lemma is_digit_digit (n : Z) : is_digit (Calendar.digit n) = true.
Proof.
  unfold is_digit. pose proof (digit_value_digit n) as E.
  pose proof (Z.mod_pos_bound n 10 ltac:(lia)).
  apply andb_true_iff. rewrite !Z.leb_le. lia.
Qed.

Lemma decimal_pad2 (n : Z) :
  0 <= n < 100 ->
  numeral (Calendar.pad2 n) = true /\ decimal (Calendar.pad2 n) = n.
Proof.
  intros Hn. unfold numeral, decimal, Calendar.pad2.
  cbn [list_ascii_of_string forallb decimal_from].
  rewrite !is_digit_digit, !digit_value_digit. split; [reflexivity|].
  Z.div_mod_to_equations. lia.
Qed.

Lemma decimal_pad4 (n : Z) :
  0 <= n < 10000 ->
  numeral (Calendar.pad4 n) = true /\ decimal (Calendar.pad4 n) = n.
Proof.
  intros Hn. unfold numeral, decimal, Calendar.pad4, Calendar.pad2.
  cbn [list_ascii_of_string forallb decimal_from].
  rewrite !is_digit_digit, !digit_value_digit. split; [reflexivity|].
  Z.div_mod_to_equations. lia.
Qed.

Lemma dmy_reads (y m d : Z) :
  0 <= d < 100 -> 0 <= m < 100 -> 0 <= y < 10000 ->
  reads_dmy (Calendar.pad2 d ++ "/" ++ Calendar.pad2 m ++ "/" ++ Calendar.pad4 y)
            y m d.
Proof.
  intros Hd Hm Hy.
  destruct (decimal_pad2 d Hd) as [Nd Dd].
  destruct (decimal_pad2 m Hm) as [Nm Dm].
  destruct (decimal_pad4 y Hy) as [Ny Dy].
  unfold reads_dmy, Calendar.pad4, Calendar.pad2 in *.
  cbn [append substring String.length].
  repeat split; assumption.
Qed.

Lemma timestamp_ns_day (ts : Z) :
  timestamp_ns ts ->
  -110000 <= Calendar.date ts <= 110000
  /\ Calendar.date ts * Calendar.ns_per_day <= ts
     < (Calendar.date ts + 1) * Calendar.ns_per_day.
Proof.
  unfold timestamp_ns, Calendar.date, Calendar.ns_per_day.
  change (2 ^ 63) with 9223372036854775808. intros Hts.
  Z.div_mod_to_equations. lia.
Qed.

Lemma strftime_dmy_reads (ts : Z) :
  timestamp_ns ts ->
  exists y m d,
    Calendar.civil_from_days (Calendar.date ts) = (y, m, d)
    /\ Calendar.days_from_civil y m d * Calendar.ns_per_day <= ts
       < (Calendar.days_from_civil y m d + 1) * Calendar.ns_per_day
    /\ 1 <= m <= 12 /\ 1 <= d <= 31
    /\ reads_dmy (Calendar.strftime_dmy ts) y m d.
Proof.
  intros Hts. destruct (timestamp_ns_day ts Hts) as [Hd Hday].
  unfold Calendar.strftime_dmy.
  destruct (Calendar.civil_from_days (Calendar.date ts)) as [[y m] d] eqn:Ec.
  destruct (civil_of_timestamp_day _ _ _ _ Hd Ec) as [Hy [Hm [He Er]]].
  exists y, m, d. rewrite Er.
  split; [reflexivity|]. split; [exact Hday|]. split; [exact Hm|].
  split; [exact He|]. apply dmy_reads; lia.
Qed.

(** C8: the article table lists the rank-filtered articles, latest
    timestamp first and agency ascending among equal timestamps; each row
    has the agency, title and url of its article, and a date of ten
    characters that reads day/month/year in decimal digits: the day of
    the month, the month and the year of the day the article's timestamp
    falls in. *)
Theorem C8_article_table {SV : SortValues} (filtered_df : DataFrame)
        (rank_range : Z * Z) :
  StronglySorted table_order
    (display_filtered_articles.sorted_articles filtered_df rank_range)
  /\ Permutation (display_filtered_articles.sorted_articles filtered_df rank_range)
                 (display_filtered_articles.filtered_articles filtered_df rank_range)
  /\ Forall2 (fun a row =>
                row_agency row = agency a
                /\ row_title row = title a
                /\ row_url row = url a
                /\ String.length (published_date row) = 10%nat
                /\ (timestamp_ns (published_at a) ->
                    exists y m d,
                      Calendar.civil_from_days (Calendar.date (published_at a))
                      = (y, m, d)
                      /\ Calendar.days_from_civil y m d * Calendar.ns_per_day
                         <= published_at a
                         < (Calendar.days_from_civil y m d + 1) * Calendar.ns_per_day
                      /\ 1 <= m <= 12 /\ 1 <= d <= 31
                      /\ reads_dmy (published_date row) y m d))
             (display_filtered_articles.sorted_articles filtered_df rank_range)
             (display_filtered_articles.displayed_columns filtered_df rank_range).
Proof.
  split; [|split].
  - unfold display_filtered_articles.sorted_articles.
    eapply StronglySorted_weaken.
    + intros a b. apply sort_key_table_order.
    + apply sort_by_sorted; [apply sort_key_total|apply sort_key_trans].
  - apply sort_by_perm.
  - unfold display_filtered_articles.displayed_columns.
    induction (display_filtered_articles.sorted_articles filtered_df rank_range)
      as [|a t IH]; cbn [map]; constructor; auto.
    cbn [row_agency row_title row_url published_date].
    split; [reflexivity|]. split; [reflexivity|]. split; [reflexivity|].
    split; [apply strftime_dmy_length|apply strftime_dmy_reads].
Qed.

Lemma C8_article_table_witness :
  exists y m d,
    Calendar.civil_from_days (Calendar.date ((d20210101 + 1) * Calendar.ns_per_day))
    = (y, m, d)
    /\ Calendar.days_from_civil y m d * Calendar.ns_per_day
       <= (d20210101 + 1) * Calendar.ns_per_day
       < (Calendar.days_from_civil y m d + 1) * Calendar.ns_per_day
    /\ 1 <= m <= 12 /\ 1 <= d <= 31
    /\ reads_dmy "02/01/2021" y m d.
Proof.
  destruct (C8_article_table (SV := stable_sort_values) scenario (1, 1))
    as [_ [_ Hrows]].
  apply Forall2_cons_iff in Hrows.
  destruct Hrows as [[_ [_ [_ [_ Hdate]]]] _].
  apply Hdate. vm_compute. split; reflexivity.
Defined.

